(** * DevConnector: the authentication guard and the sub-document routes

    A shallow embedding of
      - middleware/auth.js        (the token guard),
      - routes/api/auth.js        (login),
      - routes/api/posts.js       (posts, likes, comments),
      - routes/api/profile.js     (profiles, experience, education, account)
    together with the JavaScript array and string primitives these files
    rely on.  Handlers are written in a small response/exception monad over
    an explicit world (the three collections, the clock, the identifier
    supply and a trace of calls into the token library). *)

From Stdlib Require Import ZArith String Ascii.
From stdpp Require Import base tactics option list strings gmap fin_maps.

Open Scope Z_scope.
Open Scope string_scope.
Open Scope list_scope.

(** ** JavaScript primitives *)

Module Js.

(** *** Arrays *)

(** [Array.prototype.indexOf]: position of the first element strictly equal
    to [x], or [-1]. *)
Fixpoint indexOf {A} `{EqDecision A} (x : A) (l : list A) : Z :=
  match l with
  | [] => -1
  | y :: l' =>
      if decide (y = x) then 0
      else let i := indexOf x l' in if decide (i = -1) then -1 else i + 1
  end.

(** [Array.prototype.splice(start, deleteCount)] without inserted items,
    as ECMAScript defines it: a negative [start] counts from the end, and
    both the start and the count are clamped to the array.  The result is
    the array after the call (the removed slice is what the call returns,
    which no caller here uses). *)
Definition splice {A} (start deleteCount : Z) (l : list A) : list A :=
  let len := Z.of_nat (length l) in
  let actualStart :=
    if decide (start < 0) then Z.max (len + start) 0 else Z.min start len in
  let actualDeleteCount := Z.min (Z.max deleteCount 0) (len - actualStart) in
  take (Z.to_nat actualStart) l
    ++ drop (Z.to_nat (actualStart + actualDeleteCount)) l.

(** [ToIntegerOrInfinity] applied to an array of integers.  The array is
    first converted to a primitive: [Array.prototype.toString] joins the
    elements with commas, and [ToNumber] reads the resulting string.  The
    empty string reads as [0], a single integer reads as itself, and any
    string with a comma in it is not a numeric literal, so it reads as
    [NaN], which [ToIntegerOrInfinity] maps to [0]. *)
Definition toIntegerOrInfinity_array (a : list Z) : Z :=
  match a with
  | [] => 0
  | [n] => n
  | _ :: _ :: _ => 0
  end.

(** [Array.prototype.unshift] with one item. *)
Definition unshift {A} (x : A) (l : list A) : list A := x :: l.

(** [Array.prototype.find]. *)
Definition find {A} (f : A → bool) (l : list A) : option A :=
  List.find f l.

(** [Array.prototype.filter]. *)
Definition filter {A} (f : A → bool) (l : list A) : list A :=
  List.filter f l.

(** *** Strings *)

(** A string is truthy exactly when it is not empty; [undefined] is
    falsy. *)
Definition truthy (s : string) : bool :=
  match s with "" => false | _ => true end.

Definition truthy_opt (o : option string) : bool :=
  match o with Some s => truthy s | None => false end.

(** [String.prototype.indexOf]: position of the first occurrence of
    [needle] in [hay], or [-1]. *)
Definition str_indexOf (hay needle : string) : Z :=
  match String.index 0 needle hay with
  | Some i => Z.of_nat i
  | None => -1
  end.

(** [String.prototype.split] on a one-character separator. *)
Fixpoint split (sep : ascii) (s : string) : list string :=
  match s with
  | "" => [""]
  | String c s' =>
      if decide (c = sep) then "" :: split sep s'
      else match split sep s' with
           | [] => [String c ""]
           | h :: t => String c h :: t
           end
  end.

(** White space and line terminators of ECMAScript that fit in one 8-bit
    code unit: TAB, LF, VT, FF, CR, SP and NBSP. *)
Definition is_ws (c : ascii) : bool :=
  let n := N_of_ascii c in
  ((9 <=? n) && (n <=? 13) || (n =? 32) || (n =? 160))%N.

Fixpoint trimStart (s : string) : string :=
  match s with
  | "" => ""
  | String c s' => if is_ws c then trimStart s' else s
  end.

Fixpoint trimEnd (s : string) : string :=
  match s with
  | "" => ""
  | String c s' =>
      match trimEnd s' with
      | "" => if is_ws c then "" else String c ""
      | r => String c r
      end
  end.

(** [String.prototype.trim]. *)
Definition trim (s : string) : string := trimEnd (trimStart s).


End Js.


(** ** Documents and collections *)

(** The user document (models/User).  Identifiers are the 24-digit
    hexadecimal strings of the store's object identifiers; a reference to a
    user is the string of that user's identifier. *)
Record User := mkUser {
  user_id : string;
  user_name : string;
  user_email : string;
  user_password : string;
  user_avatar : string
}.

(** A like: a sub-document holding a user reference. *)
Record Like := mkLike {
  like_id : string;
  like_user : string
}.

Record Comment := mkComment {
  comment_id : string;
  comment_user : string;
  comment_text : string;
  comment_name : string;
  comment_avatar : string;
  comment_date : N
}.

Record Post := mkPost {
  post_id : string;
  post_user : string;
  post_text : string;
  post_name : string;
  post_avatar : string;
  post_likes : list Like;
  post_comments : list Comment;
  post_date : N
}.

(** An experience or education entry: its identifier and the fields the
    request body defined. *)
Record Entry := mkEntry {
  entry_id : string;
  entry_fields : gmap string string
}.

(** The values a profile field holds: a string, the list of skills, or the
    object of social links. *)
Inductive Value :=
| VStr (s : string)
| VArr (l : list string)
| VObj (o : gmap string string).

(** The profile document: the top-level fields that the upsert route writes
    ([user], the scalars, [skills], [social]) and the two sub-lists. *)
Record Profile := mkProfile {
  profile_id : string;
  profile_fields : gmap string Value;
  profile_experience : list Entry;
  profile_education : list Entry;
  profile_date : N
}.

Global Instance User_eq_dec : EqDecision User.
Proof. solve_decision. Defined.
Global Instance Like_eq_dec : EqDecision Like.
Proof. solve_decision. Defined.
Global Instance Comment_eq_dec : EqDecision Comment.
Proof. solve_decision. Defined.
Global Instance Post_eq_dec : EqDecision Post.
Proof. solve_decision. Defined.
Global Instance Entry_eq_dec : EqDecision Entry.
Proof. solve_decision. Defined.
Global Instance Value_eq_dec : EqDecision Value.
Proof. solve_decision. Defined.
Global Instance Profile_eq_dec : EqDecision Profile.
Proof. solve_decision. Defined.

Definition profile_user (p : Profile) : option Value :=
  profile_fields p !! "user".

Definition set_post_likes (l : list Like) (p : Post) : Post :=
  mkPost (post_id p) (post_user p) (post_text p) (post_name p)
         (post_avatar p) l (post_comments p) (post_date p).

Definition set_post_comments (c : list Comment) (p : Post) : Post :=
  mkPost (post_id p) (post_user p) (post_text p) (post_name p)
         (post_avatar p) (post_likes p) c (post_date p).

Definition set_profile_fields (f : gmap string Value) (p : Profile) : Profile :=
  mkProfile (profile_id p) f (profile_experience p) (profile_education p)
            (profile_date p).

Definition set_profile_experience (e : list Entry) (p : Profile) : Profile :=
  mkProfile (profile_id p) (profile_fields p) e (profile_education p)
            (profile_date p).

Definition set_profile_education (e : list Entry) (p : Profile) : Profile :=
  mkProfile (profile_id p) (profile_fields p) (profile_experience p) e
            (profile_date p).

(** The document store: three collections keyed by document identifier. *)
Record Db := mkDb {
  users : gmap string User;
  profiles : gmap string Profile;
  posts : gmap string Post
}.

Definition set_users (u : gmap string User) (d : Db) : Db :=
  mkDb u (profiles d) (posts d).
Definition set_profiles (p : gmap string Profile) (d : Db) : Db :=
  mkDb (users d) p (posts d).
Definition set_posts (p : gmap string Post) (d : Db) : Db :=
  mkDb (users d) (profiles d) p.

(** Calls into the token library that a request makes, newest first. *)
Inductive Event :=
| EvVerify (token secret : string)
| EvSign (user secret : string) (expiresIn : N).

(** The world a request runs in: the store, the clock in seconds, the
    supply of fresh object identifiers and the trace of library calls. *)
Record World := mkWorld {
  db : Db;
  clock : N;
  supply : N;
  trace : list Event
}.

Definition set_db (d : Db) (w : World) : World :=
  mkWorld d (clock w) (supply w) (trace w).
Definition log_event (e : Event) (w : World) : World :=
  mkWorld (db w) (clock w) (supply w) (e :: trace w).

(** ** Requests and responses *)

Record Request := mkRequest {
  req_headers : gmap string string;
  req_body : gmap string string
}.

(** One entry of an [errors] array: the validator's entries carry the
    parameter, its value and its location besides the message. *)
Record ErrorEntry := mkError {
  err_msg : string;
  err_param : option string;
  err_value : option string;
  err_location : option string
}.

Inductive Body :=
| JMsg (msg : string)
| JErrors (errors : list ErrorEntry)
| JToken (token : string)
| JPost (p : Post)
| JLikes (l : list Like)
| JComments (l : list Comment)
| JProfile (p : Profile)
| JNull
| Text (s : string).

Record Response := mkResponse {
  status : Z;
  body : Body
}.

(** [res.json(x)] answers with status 200. *)
Definition json (b : Body) : Response := mkResponse 200 b.

(** ** The handler monad *)

(** Errors a handler body can throw: dereferencing [null], and the store's
    cast error for a malformed object identifier (its [kind] is
    ['ObjectId']). *)
Inductive Exn := TypeError | CastError.

(** Running a piece of a handler either goes on with a value, ends the
    request with a response ([return res...]), or throws. *)
Inductive Outcome (A : Type) :=
| Next (a : A)
| Done (r : Response)
| Raise (e : Exn).
Arguments Next {A} a.
Arguments Done {A} r.
Arguments Raise {A} e.

Definition M (A : Type) : Type := World → Outcome A * World.

Global Instance M_ret : MRet M := λ A a w, (Next a, w).
Global Instance M_bind : MBind M := λ A B f m w,
  match m w with
  | (Next a, w') => f a w'
  | (Done r, w') => (Done r, w')
  | (Raise e, w') => (Raise e, w')
  end.

Definition respond {A} (r : Response) : M A := λ w, (Done r, w).
Definition throw {A} (e : Exn) : M A := λ w, (Raise e, w).
Definition get_db : M Db := λ w, (Next (db w), w).
Definition put_db (d : Db) : M unit := λ w, (Next tt, set_db d w).
Definition now : M N := λ w, (Next (clock w), w).
Definition emit (e : Event) : M unit := λ w, (Next tt, log_event e w).

(** Reading a property of a value that may be [null]. *)
Definition deref {A} (o : option A) : M A :=
  match o with Some a => mret a | None => throw TypeError end.

(** [try { body } catch (err) { handler }], where the body ends the request
    on every path that does not throw. *)
Definition try_catch (body : M Response) (handler : Exn → Response)
    (w : World) : Response * World :=
  match body w with
  | (Next r, w') => (r, w')
  | (Done r, w') => (r, w')
  | (Raise e, w') => (handler e, w')
  end.

Definition server_error : Response := mkResponse 500 (Text "Server Error").

(** ** External collaborators *)

(** What a verified token decodes to.  The server only ever signs payloads
    of the shape [{ user: { id } }], so the decoded payload is that
    identifier together with the two time stamps the library adds. *)
Record Decoded := mkDecoded {
  decoded_user : string;
  decoded_iat : N;
  decoded_exp : N
}.

(** Libraries and configuration the routes call: jsonwebtoken ([sign] with
    the payload's user identifier, the secret, [expiresIn] and the clock;
    [verify] with the token, the secret and the clock, [None] standing for a
    thrown error), bcryptjs, the validator's email test, the store's cast of
    a string to an object identifier, its generator of fresh identifiers,
    and the configured signing secret. *)
Record Externals := mkExternals {
  jwt_sign : string → string → N → N → string;
  jwt_verify : string → string → N → option Decoded;
  bcrypt_compare : string → string → bool;
  isEmail : string → bool;
  castObjectId : string → bool;
  newObjectId : N → string;
  jwtSecret : string
}.

(** [Model.findOne(query)]: the first document, in the collection's order,
    that satisfies the query. *)
Definition findOne {D} (q : D → bool) (c : gmap string D) : option (string * D) :=
  List.find (λ kv, q kv.2) (map_to_list c).

Section Routes.
Context (X : Externals).

(** *** Store operations *)

Definition freshId : M string := λ w,
  (Next (newObjectId X (supply w)),
   mkWorld (db w) (clock w) (supply w + 1)%N (trace w)).

(** [Post.findById(req.params.id)]: the identifier comes from the URL, so
    the cast can fail. *)
Definition Post_findById (id : string) : M (option Post) :=
  if castObjectId X id then d ← get_db; mret (posts d !! id)
  else throw CastError.

Definition Post_save (p : Post) : M unit :=
  d ← get_db; put_db (set_posts (<[post_id p := p]> (posts d)) d).

Definition Post_remove (p : Post) : M unit :=
  d ← get_db; put_db (set_posts (delete (post_id p) (posts d)) d).

(** Queries on the authenticated identity: the identity was signed by the
    server from a user document, so it casts. *)
Definition User_findById (uid : string) : M (option User) :=
  d ← get_db; mret (users d !! uid).

Definition User_findOne_email (email : string) : M (option User) :=
  d ← get_db;
  mret (snd <$> findOne (λ u, String.eqb (user_email u) email) (users d)).

Definition User_findOneAndRemove (uid : string) : M unit :=
  d ← get_db; put_db (set_users (delete uid (users d)) d).

Definition of_user (uid : string) (p : Profile) : bool :=
  bool_decide (profile_user p = Some (VStr uid)).

Definition Profile_findOne (uid : string) : M (option Profile) :=
  d ← get_db; mret (snd <$> findOne (of_user uid) (profiles d)).

Definition Profile_save (p : Profile) : M unit :=
  d ← get_db; put_db (set_profiles (<[profile_id p := p]> (profiles d)) d).

(** [findOneAndUpdate(query, { $set: fields }, { new: true })]: the fields
    given replace the stored ones, the others stay. *)
Definition Profile_findOneAndUpdate (uid : string) (fields : gmap string Value)
    : M (option Profile) :=
  d ← get_db;
  match findOne (of_user uid) (profiles d) with
  | Some (k, p) =>
      let p' := set_profile_fields (fields ∪ profile_fields p) p in
      put_db (set_profiles (<[k := p']> (profiles d)) d);;
      mret (Some p')
  | None => mret None
  end.

Definition Profile_findOneAndRemove (uid : string) : M unit :=
  d ← get_db;
  match findOne (of_user uid) (profiles d) with
  | Some (k, _) => put_db (set_profiles (delete k (profiles d)) d)
  | None => mret tt
  end.

(** *** middleware/auth.js *)

Definition no_token : Response :=
  mkResponse 401 (JMsg "No token, authorisation denied").
Definition invalid_token : Response :=
  mkResponse 401 (JMsg "Token is not valid").

(** The guard either answers itself or calls [next()] with [req.user]
    bound; the result [inr uid] is that call, [uid] being [req.user.id]. *)
Definition auth (req : Request) (w : World) : (Response + string) * World :=
  let token := req_headers req !! "x-auth-token" in
  match token with
  | Some t =>
      if Js.truthy t then
        let w' := log_event (EvVerify t (jwtSecret X)) w in
        match jwt_verify X t (jwtSecret X) (clock w') with
        | Some decoded => (inr (decoded_user decoded), w')
        | None => (inl invalid_token, w')
        end
      else (inl no_token, w)
  | None => (inl no_token, w)
  end.

(** A private route: the guard, then the handler with the identity. *)
Definition guarded (h : string → Request → World → Response * World)
    (req : Request) (w : World) : Response * World :=
  match auth req w with
  | (inl r, w') => (r, w')
  | (inr uid, w') => h uid req w'
  end.

(** *** Validation *)

Definition validation_error (field msg : string) (req : Request) : ErrorEntry :=
  mkError msg (Some field) (req_body req !! field) (Some "body").

(** [check(field, msg).not().isEmpty()] *)
Definition check_not_empty (field msg : string) (req : Request) : list ErrorEntry :=
  if Js.truthy_opt (req_body req !! field) then []
  else [validation_error field msg req].

(** [check(field, msg).isEmail()]; an absent field reads as the empty
    string, which is no email. *)
Definition check_isEmail (field msg : string) (req : Request) : list ErrorEntry :=
  match req_body req !! field with
  | Some s => if isEmail X s then [] else [validation_error field msg req]
  | None => [validation_error field msg req]
  end.

(** [check(field, msg).exists()] *)
Definition check_exists (field msg : string) (req : Request) : list ErrorEntry :=
  match req_body req !! field with
  | Some _ => []
  | None => [validation_error field msg req]
  end.

Definition isEmpty {A} (l : list A) : bool :=
  match l with [] => true | _ => false end.

Definition bad_request (errors : list ErrorEntry) : Response :=
  mkResponse 400 (JErrors errors).

(** *** routes/api/auth.js: login *)

Definition invalid_credentials : Response :=
  mkResponse 400 (JErrors [mkError "Invalid credentials" None None None]).

Definition expiresIn : N := 360000.

Definition login (req : Request) (w : World) : Response * World :=
  let errors : list ErrorEntry :=
    check_isEmail "email" "Please include a valid email" req
    ++ check_exists "password" "Password is required" req in
  if negb (isEmpty errors) then (bad_request errors, w)
  else
    try_catch
      (email ← deref (req_body req !! "email");
       password ← deref (req_body req !! "password");
       user ← User_findOne_email email;
       match user with
       | None => respond invalid_credentials
       | Some user =>
           if negb (bcrypt_compare X password (user_password user))
           then respond invalid_credentials
           else
             t ← now;
             emit (EvSign (user_id user) (jwtSecret X) expiresIn);;
             mret (json (JToken
               (jwt_sign X (user_id user) (jwtSecret X) expiresIn t)))
       end)
      (λ _, mkResponse 500 (Text "Server error")) w.

(** *** routes/api/posts.js *)

Definition post_not_found : Response := mkResponse 404 (JMsg "Post not found").

Definition create_post (uid : string) (req : Request) (w : World)
    : Response * World :=
  let errors := check_not_empty "text" "Text is required" req in
  if negb (isEmpty errors) then (bad_request errors, w)
  else
    try_catch
      (user ← User_findById uid;
       text ← deref (req_body req !! "text");
       user ← deref user;
       id ← freshId;
       t ← now;
       let newPost :=
         mkPost id uid text (user_name user) (user_avatar user) [] [] t in
       Post_save newPost;;
       mret (json (JPost newPost)))
      (λ _, server_error) w.

Definition delete_post (id uid : string) (req : Request)
    : World → Response * World :=
  try_catch
    (post ← Post_findById id;
     match post with
     | None => respond post_not_found
     | Some post =>
         if negb (String.eqb (post_user post) uid)
         then respond (mkResponse 401 (JMsg "User not authorised"))
         else
           Post_remove post;;
           mret (json (JMsg "Post removed"))
     end)
    (λ err, match err with
            | CastError => post_not_found
            | _ => server_error
            end).

Definition liked_by (uid : string) (like : Like) : bool :=
  String.eqb (like_user like) uid.

Definition like (id uid : string) (req : Request)
    : World → Response * World :=
  try_catch
    (post ← Post_findById id;
     post ← deref post;
     if (0 <? length (Js.filter (liked_by uid) (post_likes post)))%nat
     then respond (mkResponse 400 (JMsg "Post already liked"))
     else
       lid ← freshId;
       let likes := Js.unshift (mkLike lid uid) (post_likes post) in
       Post_save (set_post_likes likes post);;
       mret (json (JLikes likes)))
    (λ _, server_error).

Definition unlike (id uid : string) (req : Request)
    : World → Response * World :=
  try_catch
    (post ← Post_findById id;
     post ← deref post;
     if (length (Js.filter (liked_by uid) (post_likes post)) =? 0)%nat
     then respond (mkResponse 400 (JMsg "Post has not yet been liked"))
     else
       let removeIndex :=
         map (λ like, Js.str_indexOf (like_user like) uid) (post_likes post) in
       let likes :=
         Js.splice (Js.toIntegerOrInfinity_array removeIndex) 1
                   (post_likes post) in
       Post_save (set_post_likes likes post);;
       mret (json (JLikes likes)))
    (λ _, server_error).

Definition add_comment (id uid : string) (req : Request) (w : World)
    : Response * World :=
  let errors := check_not_empty "text" "Text is required" req in
  if negb (isEmpty errors) then (bad_request errors, w)
  else
    try_catch
      (user ← User_findById uid;
       post ← Post_findById id;
       text ← deref (req_body req !! "text");
       user ← deref user;
       post ← deref post;
       cid ← freshId;
       t ← now;
       let newComment :=
         mkComment cid uid text (user_name user) (user_avatar user) t in
       let post' :=
         set_post_comments (Js.unshift newComment (post_comments post)) post in
       Post_save post';;
       mret (json (JPost post')))
      (λ _, server_error) w.

(** [cid] is [req.params.comment_id]. *)
Definition delete_comment (id cid uid : string) (req : Request)
    : World → Response * World :=
  try_catch
    (post ← Post_findById id;
     post ← deref post;
     let comment :=
       Js.find (λ comment, String.eqb (comment_id comment) cid)
               (post_comments post) in
     match comment with
     | None => respond (mkResponse 404 (JMsg "Comment does not exist"))
     | Some comment =>
         if negb (String.eqb (comment_user comment) uid)
         then respond (mkResponse 401 (JMsg "User not authorized"))
         else
           let comments :=
             Js.filter (λ c, negb (String.eqb (comment_id c) cid))
                       (post_comments post) in
           Post_save (set_post_comments comments post);;
           mret (json (JComments comments))
     end)
    (λ _, server_error).

(** *** routes/api/profile.js *)

(** [if (v) o.k = v] *)
Definition set_if {V} (inj : string → V) (k : string) (v : option string)
    (o : gmap string V) : gmap string V :=
  match v with
  | Some s => if Js.truthy s then <[k := inj s]> o else o
  | None => o
  end.

(** The social object: built from the empty object, one link at a time. *)
Definition socialFields (b : gmap string string) : gmap string string :=
  let social := ∅ in
  let social := set_if id "youtube" (b !! "youtube") social in
  let social := set_if id "twitter" (b !! "twitter") social in
  let social := set_if id "facebook" (b !! "facebook") social in
  let social := set_if id "linkedin" (b !! "linkedin") social in
  let social := set_if id "instagram" (b !! "instagram") social in
  social.

(** [skills.split(',').map((skill) => skill.trim())] *)
Definition skillsList (skills : string) : list string :=
  map Js.trim (Js.split "," skills).

(** The field set the upsert route builds from the identity and the
    request body. *)
Definition profileFields (uid : string) (b : gmap string string)
    : gmap string Value :=
  let f := {[ "user" := VStr uid ]} in
  let f := set_if VStr "company" (b !! "company") f in
  let f := set_if VStr "website" (b !! "website") f in
  let f := set_if VStr "location" (b !! "location") f in
  let f := set_if VStr "bio" (b !! "bio") f in
  let f := set_if VStr "status" (b !! "status") f in
  let f := set_if VStr "githubusername" (b !! "githubusername") f in
  let f := set_if (λ skills, VArr (skillsList skills)) "skills"
                  (b !! "skills") f in
  <["social" := VObj (socialFields b)]> f.

Definition upsert_profile (uid : string) (req : Request) (w : World)
    : Response * World :=
  let errors : list ErrorEntry :=
    check_not_empty "status" "Status is required" req
    ++ check_not_empty "skills" "Skills is required" req in
  if negb (isEmpty errors) then (bad_request errors, w)
  else
    let fields := profileFields uid (req_body req) in
    try_catch
      (profile ← Profile_findOne uid;
       match profile with
       | Some _ =>
           profile ← Profile_findOneAndUpdate uid fields;
           mret (json (from_option JProfile JNull profile))
       | None =>
           pid ← freshId;
           t ← now;
           let profile := mkProfile pid fields [] [] t in
           Profile_save profile;;
           mret (json (JProfile profile))
       end)
      (λ _, server_error) w.

Definition delete_account (uid : string) (req : Request)
    : World → Response * World :=
  try_catch
    (Profile_findOneAndRemove uid;;
     User_findOneAndRemove uid;;
     mret (json (JMsg "User deleted")))
    (λ _, server_error).

(** The object literal [{ k1, ..., kn }] of the destructured body fields;
    the fields the body leaves undefined are not stored. *)
Definition pick (keys : list string) (b : gmap string string)
    : gmap string string :=
  filter (λ kv, kv.1 ∈ keys) b.

Definition experience_keys : list string :=
  ["title"; "company"; "location"; "from"; "to"; "current"; "description"].
Definition education_keys : list string :=
  ["school"; "degree"; "fieldofstudy"; "from"; "to"; "current";
   "description"].

Definition add_experience (uid : string) (req : Request) (w : World)
    : Response * World :=
  let errors : list ErrorEntry :=
    check_not_empty "title" "Title is required" req
    ++ check_not_empty "company" "Company is required" req
    ++ check_not_empty "from" "From date is required" req in
  if negb (isEmpty errors) then (bad_request errors, w)
  else
    let newExp := pick experience_keys (req_body req) in
    try_catch
      (profile ← Profile_findOne uid;
       profile ← deref profile;
       eid ← freshId;
       let profile' :=
         set_profile_experience
           (Js.unshift (mkEntry eid newExp) (profile_experience profile))
           profile in
       Profile_save profile';;
       mret (json (JProfile profile')))
      (λ _, server_error) w.

Definition delete_experience (exp_id uid : string) (req : Request)
    : World → Response * World :=
  try_catch
    (profile ← Profile_findOne uid;
     profile ← deref profile;
     let removeIndex :=
       Js.indexOf exp_id (map entry_id (profile_experience profile)) in
     let profile' :=
       set_profile_experience
         (Js.splice removeIndex 1 (profile_experience profile)) profile in
     Profile_save profile';;
     mret (json (JProfile profile')))
    (λ _, server_error).

Definition add_education (uid : string) (req : Request) (w : World)
    : Response * World :=
  let errors : list ErrorEntry :=
    check_not_empty "school" "School is required" req
    ++ check_not_empty "degree" "Degree is required" req
    ++ check_not_empty "fieldofstudy" "Field of study is required" req
    ++ check_not_empty "from" "From date is required" req in
  if negb (isEmpty errors) then (bad_request errors, w)
  else
    let newEdu := pick education_keys (req_body req) in
    try_catch
      (profile ← Profile_findOne uid;
       profile ← deref profile;
       eid ← freshId;
       let profile' :=
         set_profile_education
           (Js.unshift (mkEntry eid newEdu) (profile_education profile))
           profile in
       Profile_save profile';;
       mret (json (JProfile profile')))
      (λ _, server_error) w.

Definition delete_education (edu_id uid : string) (req : Request)
    : World → Response * World :=
  try_catch
    (profile ← Profile_findOne uid;
     profile ← deref profile;
     let removeIndex :=
       Js.indexOf edu_id (map entry_id (profile_education profile)) in
     let profile' :=
       set_profile_education
         (Js.splice removeIndex 1 (profile_education profile)) profile in
     Profile_save profile';;
     mret (json (JProfile profile')))
    (λ _, server_error).

(** *** The routes that write to the store

    The read-only routes ([GET]) leave the world as it is and are not
    listed. *)
Inductive Route :=
| POST_auth
| POST_posts
| DELETE_posts (id : string)
| PUT_posts_like (id : string)
| PUT_posts_unlike (id : string)
| POST_posts_comment (id : string)
| DELETE_posts_comment (id cid : string)
| POST_profile
| DELETE_profile
| PUT_profile_experience
| DELETE_profile_experience (exp_id : string)
| PUT_profile_education
| DELETE_profile_education (edu_id : string).

Definition handle (r : Route) : Request → World → Response * World :=
  match r with
  | POST_auth => login
  | POST_posts => guarded create_post
  | DELETE_posts id => guarded (delete_post id)
  | PUT_posts_like id => guarded (like id)
  | PUT_posts_unlike id => guarded (unlike id)
  | POST_posts_comment id => guarded (add_comment id)
  | DELETE_posts_comment id cid => guarded (delete_comment id cid)
  | POST_profile => guarded upsert_profile
  | DELETE_profile => guarded delete_account
  | PUT_profile_experience => guarded add_experience
  | DELETE_profile_experience exp_id => guarded (delete_experience exp_id)
  | PUT_profile_education => guarded add_education
  | DELETE_profile_education edu_id => guarded (delete_education edu_id)
  end.

(** The worlds the server can be in.  It starts with no post and no
    profile; between two requests the clock moves and user documents come
    and go through registration, which writes to the user collection
    only. *)
Definition environment_step (w w' : World) : Prop :=
  profiles (db w') = profiles (db w) ∧ posts (db w') = posts (db w).

Inductive reachable : World → Prop :=
| reachable_init w :
    profiles (db w) = ∅ → posts (db w) = ∅ → reachable w
| reachable_env w w' :
    reachable w → environment_step w w' → reachable w'
| reachable_handle w r req :
    reachable w → reachable (handle r req w).2.

End Routes.

(** ** The token library's contract

    What the routes rely on from jsonwebtoken, with [decode] the library's
    reading of a token's claims without verification: a signed token is not
    the empty string and carries the identity, the time of issue and that
    time plus [expiresIn] as its expiration; verification of a token signed
    with the same secret succeeds strictly before the expiration; and
    whenever verification succeeds, it returns the token's claims and the
    clock is strictly before their expiration. *)
Definition jwt_contract (X : Externals) (decode : string → option Decoded) : Prop :=
  (∀ u s e t, jwt_sign X u s e t ≠ "")
  ∧ (∀ u s e t, decode (jwt_sign X u s e t) = Some (mkDecoded u t (t + e)%N))
  ∧ (∀ u s e t t', (t' < t + e)%N →
       jwt_verify X (jwt_sign X u s e t) s t' = Some (mkDecoded u t (t + e)%N))
  ∧ (∀ tok s t' d, jwt_verify X tok s t' = Some d →
       decode tok = Some d ∧ (t' < decoded_exp d)%N).

(** ** A reference implementation of the collaborators

    A small, executable stand-in for the libraries, used to run the routes
    on concrete requests.  A token spells out its claims and the secret it
    was signed with: the letter J, then the time of issue, the expiration
    and the length of the secret as binary numerals, then the secret and
    the user identifier. *)
Module Ref.

Fixpoint encP (p : positive) : string :=
  match p with
  | xH => ";"
  | xO p => String "0" (encP p)
  | xI p => String "1" (encP p)
  end.

Definition encN (n : N) : string :=
  match n with
  | N0 => "z"
  | Npos p => encP p
  end.

Fixpoint decP (s : string) : option (positive * string) :=
  match s with
  | String ";" r => Some (xH, r)
  | String "0" s' => '(p, r) ← decP s'; Some (xO p, r)
  | String "1" s' => '(p, r) ← decP s'; Some (xI p, r)
  | _ => None
  end.

Definition decN (s : string) : option (N * string) :=
  match s with
  | String "z" r => Some (N0, r)
  | _ => '(p, r) ← decP s; Some (Npos p, r)
  end.

Fixpoint strip_prefix (p s : string) : option string :=
  match p, s with
  | "", _ => Some s
  | String a p', String b s' =>
      if decide (a = b) then strip_prefix p' s' else None
  | String _ _, "" => None
  end.

Definition sign (u s : string) (e t : N) : string :=
  String "J" (encN t +:+ encN (t + e) +:+ encN (N.of_nat (String.length s))
              +:+ s +:+ u).

Definition decode_with (check : N → string → option string) (tok : string)
    : option Decoded :=
  match tok with
  | String "J" r =>
      '(iat, r) ← decN r;
      '(exp, r) ← decN r;
      '(n, r) ← decN r;
      u ← check n r;
      Some (mkDecoded u iat exp)
  | _ => None
  end.

Fixpoint skip (n : nat) (s : string) : string :=
  match n, s with
  | S n', String _ s' => skip n' s'
  | _, _ => s
  end.

Definition decode : string → option Decoded :=
  decode_with (λ n r, Some (skip (N.to_nat n) r)).

Definition verify (tok s : string) (t : N) : option Decoded :=
  d ← decode_with (λ n r,
         if decide (n = N.of_nat (String.length s)) then strip_prefix s r
         else None) tok;
  if decide (t < decoded_exp d)%N then Some d else None.

Definition is_hex (c : ascii) : bool :=
  let n := N_of_ascii c in
  ((48 <=? n) && (n <=? 57) || (97 <=? n) && (n <=? 102)
   || (65 <=? n) && (n <=? 70))%N.

Fixpoint all_hex (s : string) : bool :=
  match s with
  | "" => true
  | String c s' => is_hex c && all_hex s'
  end.

(** A string casts to an object identifier when it is 24 hexadecimal
    digits. *)
Definition cast (s : string) : bool :=
  (String.length s =? 24)%nat && all_hex s.

(** The [n]-th fresh identifier: 24 hexadecimal digits, the low ones
    counting in base 16. *)
Definition hex_digit (n : N) : ascii :=
  ascii_of_N (if (n <? 10)%N then 48 + n else 87 + n)%N.

Fixpoint hex (digits : nat) (n : N) : string :=
  match digits with
  | O => ""
  | S d => hex d (n / 16)%N +:+ String (hex_digit (n mod 16)%N) ""
  end.

Definition oid (n : N) : string := hex 24 n.

(** The password check of the stand-in: the stored hash is the password
    behind a fixed prefix. *)
Definition compare (password hash : string) : bool :=
  String.eqb ("$2a$" +:+ password) hash.

Fixpoint has_at (s : string) : bool :=
  match s with
  | "" => false
  | String c s' => if decide (c = "@"%char) then true else has_at s'
  end.

Definition X : Externals :=
  mkExternals sign verify compare has_at cast oid "mysecrettoken".

End Ref.


(** ** Vocabulary of the statements *)






(** The non-empty value the body gives to the field [k], if any. *)
Definition given (b : gmap string string) (k : string) : option string :=
  match b !! k with
  | Some s => if Js.truthy s then Some s else None
  | None => None
  end.


(** Every document is stored under its own identifier. *)
Definition stored_under_id (d : Db) : Prop :=
  (∀ k p, posts d !! k = Some p → post_id p = k)
  ∧ (∀ k p, profiles d !! k = Some p → profile_id p = k).

(** At most one like per user on every post. *)
Definition one_like_per_user (d : Db) : Prop :=
  ∀ k p, posts d !! k = Some p → NoDup (like_user <$> post_likes p).

(** At most one profile per user. *)
Definition one_profile_per_user (d : Db) : Prop :=
  ∀ k1 k2 p1 p2 uid,
    profiles d !! k1 = Some p1 → profiles d !! k2 = Some p2 →
    profile_user p1 = Some (VStr uid) → profile_user p2 = Some (VStr uid) →
    k1 = k2.

Definition db_ok (d : Db) : Prop :=
  stored_under_id d ∧ one_like_per_user d ∧ one_profile_per_user d.

Definition ok (w : World) : Prop := db_ok (db w).

(** ** Sample data

    Two users, a post of Alice that Bob and then Alice liked and Bob
    commented on, and Alice's profile with two experience entries and one
    education entry. *)
Module Sample.

Definition alice_id := "aaaaaaaaaaaaaaaaaaaaaaaa".
Definition bob_id := "bbbbbbbbbbbbbbbbbbbbbbbb".
Definition alice : User :=
  mkUser alice_id "Alice" "alice@example.com" "$2a$wonderland" "a.png".
Definition bob : User :=
  mkUser bob_id "Bob" "bob@example.com" "$2a$builder" "b.png".

Definition post_id1 := "cccccccccccccccccccccccc".
Definition like_of_alice : Like := mkLike "111111111111111111111111" alice_id.
Definition like_of_bob : Like := mkLike "222222222222222222222222" bob_id.
Definition comment_of_bob : Comment :=
  mkComment "333333333333333333333333" bob_id "Nice" "Bob" "b.png" 1100.
Definition post1 : Post :=
  mkPost post_id1 alice_id "hello" "Alice" "a.png"
         [like_of_alice; like_of_bob] [comment_of_bob] 1000.

Definition job1 : Entry :=
  mkEntry "444444444444444444444444" {[ "title" := "Engineer" ]}.
Definition job2 : Entry :=
  mkEntry "555555555555555555555555" {[ "title" := "Intern" ]}.
Definition school1 : Entry :=
  mkEntry "666666666666666666666666" {[ "school" := "MIT" ]}.
Definition profile_id1 := "dddddddddddddddddddddddd".
Definition profile1 : Profile :=
  mkProfile profile_id1 {[ "user" := VStr alice_id ]}
            [job1; job2] [school1] 1000.

Definition users0 : gmap string User :=
  {[ alice_id := alice; bob_id := bob ]}.

Definition world : World :=
  mkWorld (mkDb users0 {[ profile_id1 := profile1 ]} {[ post_id1 := post1 ]})
          2000 7 [].

(** An identifier that casts and names no document. *)
Definition absent_id := "eeeeeeeeeeeeeeeeeeeeeeee".

Definition request (token : option string) (b : gmap string string) : Request :=
  mkRequest (from_option (λ t, {[ "x-auth-token" := t ]}) ∅ token) b.

Definition no_body : gmap string string := ∅.

(** The server before any post or profile, and the tokens of a login of
    Alice and of Bob at time 1000. *)
Definition start : World := mkWorld (mkDb users0 ∅ ∅) 1000 0 [].
Definition alice_token : string :=
  Ref.sign alice_id (jwtSecret Ref.X) 360000 1000.
Definition bob_token : string :=
  Ref.sign bob_id (jwtSecret Ref.X) 360000 1000.

(** Alice creates her profile and a post; Bob likes the post. *)
Definition after_profile : World :=
  (handle Ref.X POST_profile
     (request (Some alice_token)
              {[ "status" := "Developer"; "skills" := "js, coq" ]}) start).2.
Definition after_post : World :=
  (handle Ref.X POST_posts
     (request (Some alice_token) {[ "text" := "hello" ]}) after_profile).2.
Definition after_like : World :=
  (handle Ref.X (PUT_posts_like (Ref.oid 1))
     (request (Some bob_token) no_body) after_post).2.

(** A world where Alice's stored profile has a company and a link. *)
Definition linked_profile : Profile :=
  mkProfile profile_id1
            {[ "user" := VStr alice_id; "company" := VStr "Acme";
               "social" := VObj {[ "twitter" := "@alice" ]} ]}
            [] [] 1000.
Definition linked_world : World :=
  mkWorld (mkDb users0 {[ profile_id1 := linked_profile ]} ∅) 2000 7 [].

End Sample.

(** ** The read routes

    The routes that answer from the store without writing to it: a post by
    its identifier, the authenticated user, the profile of the authenticated
    user and the profile of a given user. *)

(** The user document as [.select('-password')] returns it. *)
Record PublicUser := mkPublicUser {
  public_id : string;
  public_name : string;
  public_email : string;
  public_avatar : string
}.

Definition select_no_password (u : User) : PublicUser :=
  mkPublicUser (user_id u) (user_name u) (user_email u) (user_avatar u).

(** What [populate('user', ['name', 'avatar'])] puts in place of the user
    reference of a profile: the identifier and the two fields of the user
    document, or [null] when no user document has the identifier. *)
Record UserRef := mkUserRef {
  ref_id : string;
  ref_name : string;
  ref_avatar : string
}.

Definition populate_user (d : Db) (p : Profile) : option UserRef :=
  match profile_user p with
  | Some (VStr uid) =>
      (λ u, mkUserRef (user_id u) (user_name u) (user_avatar u))
        <$> users d !! uid
  | _ => None
  end.

(** What a read route sends: an answer of the kinds the other routes send,
    the populated profile, or the user without the password ([null] when
    there is none), the last two with status 200. *)
Inductive Page :=
| Answer (r : Response)
| ProfilePage (p : Profile) (user : option UserRef)
| UserPage (u : option PublicUser).

(** [try { body } catch (err) { handler }] for a route that sends a page. *)
Definition try_page (body : M Page) (handler : Exn → Response)
    (w : World) : Page * World :=
  match body w with
  | (Next p, w') => (p, w')
  | (Done r, w') => (Answer r, w')
  | (Raise e, w') => (Answer (handler e), w')
  end.

Section ReadRoutes.
Context (X : Externals).


(** [GET api/auth] *)
Definition get_auth_user (uid : string) (req : Request)
    : World → Page * World :=
  try_page
    (user ← User_findById uid;
     mret (UserPage (select_no_password <$> user)))
    (λ _, server_error).

(** [Profile.findOne({ user }).populate('user', ['name', 'avatar'])] *)
Definition Profile_findOne_populated (uid : string)
    : M (option (Profile * option UserRef)) :=
  d ← get_db;
  mret ((λ kp, (kp.2, populate_user d kp.2))
          <$> findOne (of_user uid) (profiles d)).

(** [GET api/profile/me] *)
Definition get_my_profile (uid : string) (req : Request)
    : World → Page * World :=
  try_page
    (profile ← Profile_findOne_populated uid;
     match profile with
     | None =>
         respond (mkResponse 400 (JMsg "There is no profile for this user"))
     | Some (profile, user) => mret (ProfilePage profile user)
     end)
    (λ _, server_error).



End ReadRoutes.

(** ** Vocabulary of the frame statements *)



(** ** More sample data *)
Module Sample2.

(** The sample world with a post that nobody has liked yet. *)
Definition quiet_post : Post :=
  mkPost Sample.post_id1 Sample.alice_id "hello" "Alice" "a.png" [] [] 1000.
Definition quiet_world : World :=
  mkWorld (mkDb Sample.users0
                {[ Sample.profile_id1 := Sample.profile1 ]}
                {[ Sample.post_id1 := quiet_post ]})
          2000 7 [].

Definition carol_id := "cccccccccccccccccccccc00".

Definition text_body : gmap string string := {[ "text" := "Well said" ]}.

End Sample2.

(** * Properties *)

(** ** The primitives on small inputs *)

Example splice_last : Js.splice (-1) 1 [1; 2; 3] = [1; 2].
Proof. reflexivity. Qed.
Example splice_mid : Js.splice 1 1 [1; 2; 3] = [1; 3].
Proof. reflexivity. Qed.
Example splice_array_start :
  Js.splice (Js.toIntegerOrInfinity_array [-1; 0]) 1 [1; 2; 3] = [2; 3].
Proof. reflexivity. Qed.
Example split_ex : Js.split "," "a, b ,,c" = ["a"; " b "; ""; "c"].
Proof. reflexivity. Qed.
Example trim_ex : Js.trim "  a b  " = "a b".
Proof. reflexivity. Qed.
Example str_indexOf_ex :
  Js.str_indexOf "abc" "abc" = 0 ∧ Js.str_indexOf "abc" "abd" = -1.
Proof. split; reflexivity. Qed.
Example ref_oid :
  Ref.oid 26 = "00000000000000000000001a" ∧ Ref.cast (Ref.oid 26) = true.
Proof. split; reflexivity. Qed.
Example ref_sign_verify :
  Ref.verify (Ref.sign "u1" "k" 10 5) "k" 14 = Some (mkDecoded "u1" 5 15)
  ∧ Ref.verify (Ref.sign "u1" "k" 10 5) "k" 15 = None
  ∧ Ref.verify (Ref.sign "u1" "k" 10 5) "q" 14 = None
  ∧ Ref.decode (Ref.sign "u1" "k" 10 5) = Some (mkDecoded "u1" 5 15).
Proof. repeat split; reflexivity. Qed.

(** ** Array primitives *)

Section JsArrays.
Context {A : Type} `{EqDecision A}.
Implicit Types (l : list A) (x : A).

Lemma indexOf_lower x l : (-1 ≤ Js.indexOf x l)%Z.
Proof.
  induction l as [|y l IH]; simpl; [lia|].
  repeat case_decide; lia.
Qed.

Lemma indexOf_absent x l : x ∉ l → Js.indexOf x l = -1.
Proof.
  induction l as [|y l IH]; simpl; [done|].
  intros Hx. apply not_elem_of_cons in Hx as [Hne Hx].
  rewrite (IH Hx). case_decide; [congruence|]. by case_decide.
Qed.

Lemma indexOf_present x l :
  x ∈ l →
  (0 ≤ Js.indexOf x l)%Z ∧ l !! Z.to_nat (Js.indexOf x l) = Some x.
Proof.
  induction l as [|y l IH]; simpl; [by intros ?%elem_of_nil|].
  intros Hx. case_decide as Hy; [by subst|].
  apply elem_of_cons in Hx as [->|Hx]; [done|].
  destruct (IH Hx) as [H0 Hl].
  case_decide; [lia|]. split; [lia|].
  by replace (Z.to_nat (Js.indexOf x l + 1)) with (S (Z.to_nat (Js.indexOf x l))) by lia.
Qed.

(** The position [indexOf] returns is the first one holding [x]. *)
Lemma indexOf_first x l i :
  (i < Z.to_nat (Js.indexOf x l))%nat → l !! i ≠ Some x.
Proof.
  revert i. induction l as [|y l IH]; simpl; intros i Hi; [done|].
  case_decide as Hy; [simpl in Hi; lia|].
  case_decide as Hm; [simpl in Hi; lia|].
  destruct i as [|i]; simpl; [congruence|].
  apply IH. pose proof (indexOf_lower x l). lia.
Qed.

(** Removing one element at the not-found position [-1] removes the last
    element. *)
Lemma splice_minus_one l :
  Js.splice (-1) 1 l = take (length l - 1) l.
Proof.
  unfold Js.splice. case_decide; [|lia].
  destruct l as [|y l]; [done|].
  rewrite (drop_ge (y :: l)) by (simpl length; lia).
  rewrite app_nil_r. f_equal. simpl length. lia.
Qed.

(** Removing one element at a position inside the array removes exactly
    that element. *)
Lemma splice_inside (i : Z) l :
  (0 ≤ i < Z.of_nat (length l))%Z →
  Js.splice i 1 l = delete (Z.to_nat i) l.
Proof.
  intros Hi. unfold Js.splice. case_decide; [lia|].
  rewrite delete_take_drop.
  replace (Z.to_nat (Z.min i (Z.of_nat (length l)))) with (Z.to_nat i) by lia.
  f_equal. f_equal. lia.
Qed.

Lemma splice_zero l : Js.splice 0 1 l = drop 1 l.
Proof.
  destruct l as [|y l]; [done|].
  rewrite splice_inside by (simpl length; lia). done.
Qed.

(** Whatever the arguments, [splice] without items keeps a sub-list. *)
Lemma splice_sublist (i n : Z) l : Js.splice i n l `sublist_of` l.
Proof.
  unfold Js.splice.
  set (a := Z.to_nat _). set (b := Z.to_nat _).
  assert (a ≤ b)%nat as Hab by (subst a b; case_decide; lia).
  rewrite <- (take_drop a l) at 3.
  apply sublist_app; [done|].
  replace b with (a + (b - a))%nat by lia.
  rewrite <- drop_drop. apply sublist_drop.
Qed.

End JsArrays.

(** ** String primitives *)


Lemma append_cons (c : ascii) (a b : string) :
  String c a +:+ b = String c (a +:+ b).
Proof. reflexivity. Qed.

Lemma append_nil_r (a : string) : a +:+ "" = a.
Proof. induction a as [|c a IH]; [done|]. by rewrite append_cons, IH. Qed.

Lemma append_assoc (a b c : string) : (a +:+ b) +:+ c = a +:+ (b +:+ c).
Proof.
  induction a as [|x a IH]; [done|]. by rewrite !append_cons, IH.
Qed.









(** ** Queries *)

Lemma findOne_Some {D} (q : D → bool) (c : gmap string D) k d :
  findOne q c = Some (k, d) → c !! k = Some d ∧ q d = true.
Proof.
  unfold findOne. intros H. apply find_some in H as [Hin Hq].
  split; [|done]. apply elem_of_map_to_list. by apply list_elem_of_In.
Qed.

Lemma findOne_None {D} (q : D → bool) (c : gmap string D) k d :
  findOne q c = None → c !! k = Some d → q d = false.
Proof.
  unfold findOne. intros H Hk.
  apply (find_none _ _ H (k, d)).
  by apply list_elem_of_In, elem_of_map_to_list.
Qed.


Lemma of_user_true uid p :
  of_user uid p = true ↔ profile_user p = Some (VStr uid).
Proof. unfold of_user. by rewrite bool_decide_eq_true. Qed.

(** ** A weakest-precondition calculus for handler bodies

    [wp m Q E w]: running [m] in [w] either goes on with a value and a world
    that satisfy [Q], or leaves (by a response or an exception) in a world
    that satisfies [E]. *)

Definition wp {A} (m : M A) (Q : A → World → Prop) (E : World → Prop)
    (w : World) : Prop :=
  match m w with
  | (Next a, w') => Q a w'
  | (Done _, w') => E w'
  | (Raise _, w') => E w'
  end.

Section Wp.
Context {A B : Type} (E : World → Prop).
Implicit Types (w : World).

Lemma wp_bind (m : M A) (f : A → M B) Q w :
  wp m (λ a w', wp (f a) Q E w') E w → wp (m ≫= f) Q E w.
Proof.
  unfold wp, mbind, M_bind. by destruct (m w) as [[a|r|e] w'].
Qed.

Lemma wp_ret (a : A) (Q : A → World → Prop) w : Q a w → wp (mret a) Q E w.
Proof. done. Qed.

Lemma wp_respond r (Q : A → World → Prop) w : E w → wp (respond r) Q E w.
Proof. done. Qed.

Lemma wp_throw e (Q : A → World → Prop) w : E w → wp (throw e) Q E w.
Proof. done. Qed.

Lemma wp_deref (o : option A) (Q : A → World → Prop) w :
  E w → (∀ a, o = Some a → Q a w) → wp (deref o) Q E w.
Proof. intros HE HQ. destruct o; [by apply HQ|done]. Qed.

Lemma wp_try_catch (body : M Response) h w :
  wp body (λ _ w', E w') E w → E (try_catch body h w).2.
Proof.
  unfold wp, try_catch. by destruct (body w) as [[a|r|e] w'].
Qed.

End Wp.

Section WpPrimitives.
Context (E : World → Prop).
Implicit Types (w : World).

Lemma wp_get_db (Q : Db → World → Prop) w : Q (db w) w → wp get_db Q E w.
Proof. done. Qed.

Lemma wp_put_db d (Q : unit → World → Prop) w :
  Q tt (set_db d w) → wp (put_db d) Q E w.
Proof. done. Qed.

Lemma wp_now (Q : N → World → Prop) w : Q (clock w) w → wp now Q E w.
Proof. done. Qed.

Lemma wp_emit e (Q : unit → World → Prop) w :
  Q tt (log_event e w) → wp (emit e) Q E w.
Proof. done. Qed.

Lemma wp_fresh X (Q : string → World → Prop) w :
  (∀ w', db w' = db w → Q (newObjectId X (supply w)) w') →
  wp (freshId X) Q E w.
Proof. intros H. by apply H. Qed.

End WpPrimitives.

(** ** The store invariant is kept by every write the routes make *)

Ltac unfold_db_ok :=
  unfold db_ok, stored_under_id, one_like_per_user, one_profile_per_user in *;
  simpl in *.

Lemma db_ok_save_post d p :
  db_ok d → NoDup (like_user <$> post_likes p) →
  db_ok (set_posts (<[post_id p := p]> (posts d)) d).
Proof.
  unfold_db_ok. intros ([Hpost Hprof] & Hlikes & Hone) Hp.
  repeat split; try done.
  - intros k q. rewrite lookup_insert.
    case_decide; [by intros [= <-]|by apply Hpost].
  - intros k q. rewrite lookup_insert.
    case_decide; [by intros [= <-]|by apply Hlikes].
Qed.

Lemma db_ok_remove_post d k :
  db_ok d → db_ok (set_posts (delete k (posts d)) d).
Proof.
  unfold_db_ok. intros ([Hpost Hprof] & Hlikes & Hone).
  repeat split; try done.
  - intros k' q [_ ?]%lookup_delete_Some. by apply Hpost.
  - intros k' q [_ ?]%lookup_delete_Some. by eapply Hlikes.
Qed.

Lemma db_ok_set_users d u : db_ok d → db_ok (set_users u d).
Proof. by unfold_db_ok. Qed.

Lemma db_ok_remove_profile d k :
  db_ok d → db_ok (set_profiles (delete k (profiles d)) d).
Proof.
  unfold_db_ok. intros ([Hpost Hprof] & Hlikes & Hone).
  repeat split; try done.
  - intros k' q [_ ?]%lookup_delete_Some. by apply Hprof.
  - intros k1 k2 p1 p2 uid.
    intros [_ H1]%lookup_delete_Some [_ H2]%lookup_delete_Some. by eapply Hone.
Qed.

(** Writing back a profile that was read, with its identifier and its user
    as they were. *)
Lemma db_ok_update_profile d k p0 p :
  db_ok d → profiles d !! k = Some p0 →
  profile_id p = profile_id p0 → profile_user p = profile_user p0 →
  db_ok (set_profiles (<[k := p]> (profiles d)) d).
Proof.
  unfold_db_ok. intros ([Hpost Hprof] & Hlikes & Hone) Hk Hid Hu.
  repeat split; try done.
  - intros k' q. rewrite lookup_insert. case_decide.
    + intros [= <-]. subst k'. rewrite Hid. by apply Hprof.
    + by apply Hprof.
  - intros k1 k2 p1 p2 uid. rewrite !lookup_insert.
    repeat case_decide; simplify_eq; try done.
    + intros [= <-] H2 H1 H2'. rewrite Hu in H1. by eapply Hone.
    + intros H1 [= <-] H1' H2. rewrite Hu in H2. by eapply Hone.
    + by apply Hone.
Qed.

(** Storing a new profile for a user who has none. *)
Lemma db_ok_new_profile d uid p :
  db_ok d → findOne (of_user uid) (profiles d) = None →
  profile_user p = Some (VStr uid) →
  db_ok (set_profiles (<[profile_id p := p]> (profiles d)) d).
Proof.
  intros Hok Hnone Hu.
  assert (∀ k q, profiles d !! k = Some q → profile_user q ≠ Some (VStr uid))
    as Hfree.
  { intros k q Hk Hq. apply of_user_true in Hq.
    by rewrite (findOne_None _ _ _ _ Hnone Hk) in Hq. }
  revert Hok. unfold_db_ok. intros ([Hpost Hprof] & Hlikes & Hone).
  repeat split; try done.
  - intros k q. rewrite lookup_insert.
    case_decide; [by intros [= <-]|by apply Hprof].
  - intros k1 k2 p1 p2 uid'. rewrite !lookup_insert.
    repeat case_decide; simplify_eq; try done.
    + intros [= <-] H2 H1 H2'. rewrite Hu in H1. simplify_eq.
      by destruct (Hfree _ _ H2).
    + intros H1 [= <-] H1' H2. rewrite Hu in H2. simplify_eq.
      by destruct (Hfree _ _ H1).
    + by apply Hone.
Qed.

(** ** Likes *)

Lemma liked_by_filter_nil uid l :
  Js.filter (liked_by uid) l = [] ↔ uid ∉ like_user <$> l.
Proof.
  induction l as [|x l IH]; simpl.
  - split; [intros _ ?%elem_of_nil|]; done.
  - unfold liked_by at 1. destruct (String.eqb_spec (like_user x) uid) as [He|He].
    + split; [done|]. intros Hn. destruct Hn. rewrite He.
      apply elem_of_cons. by left.
    + rewrite IH, not_elem_of_cons.
      split; [intros; split; [congruence|done]|by intros [_ ?]].
Qed.

Lemma liked_by_filter_length uid l :
  (0 <? length (Js.filter (liked_by uid) l))%nat = true
  ↔ uid ∈ like_user <$> l.
Proof.
  rewrite Nat.ltb_lt. split.
  - intros Hlen. destruct (decide (uid ∈ like_user <$> l)) as [|Hn]; [done|].
    apply liked_by_filter_nil in Hn. rewrite Hn in Hlen. simpl in Hlen. lia.
  - intros Hin. destruct (Js.filter (liked_by uid) l) eqn:E; [|simpl; lia].
    apply liked_by_filter_nil in E. done.
Qed.

(** ** Every route keeps the store invariant *)

Ltac wp_step :=
  lazymatch goal with
  | |- wp (_ ≫= _) _ _ _ => apply wp_bind
  | |- wp (mret _) _ _ _ => apply wp_ret
  | |- wp (respond _) _ _ _ => apply wp_respond
  | |- wp (throw _) _ _ _ => apply wp_throw
  | |- wp (deref _) _ _ _ => apply wp_deref; [|intros ? ?]
  | |- wp get_db _ _ _ => apply wp_get_db
  | |- wp (put_db _) _ _ _ => apply wp_put_db
  | |- wp now _ _ _ => apply wp_now
  | |- wp (emit _) _ _ _ => apply wp_emit
  | |- wp (freshId _) _ _ _ => apply wp_fresh; intros ? ?
  | |- wp (if ?b then _ else _) _ _ _ => destruct b eqn:?
  | |- wp (match ?o with _ => _ end) _ _ _ => destruct o eqn:?
  end.

Ltac wp_run :=
  apply wp_try_catch;
  unfold Post_findById, Post_save, Post_remove, User_findById,
    User_findOne_email, User_findOneAndRemove, Profile_findOne, Profile_save,
    Profile_findOneAndUpdate, Profile_findOneAndRemove;
  repeat wp_step; try done.

Ltac ok_write :=
  unfold ok in *; cbn [db set_db];
  repeat match goal with H : db _ = db _ |- _ => rewrite H in * end.

Lemma like_ok X id uid req w : ok w → ok (like X id uid req w).2.
Proof.
  intros Hok. unfold like. wp_run. ok_write.
  apply db_ok_save_post; [done|]. simpl. apply NoDup_cons. split.
  - apply liked_by_filter_nil.
    by destruct (Js.filter (liked_by uid) (post_likes _)).
  - destruct Hok as (_ & Hlikes & _). by eapply Hlikes.
Qed.

Lemma unlike_ok X id uid req w : ok w → ok (unlike X id uid req w).2.
Proof.
  intros Hok. unfold unlike. wp_run. ok_write.
  apply db_ok_save_post; [done|]. simpl.
  eapply sublist_NoDup; [|apply fmap_sublist, splice_sublist].
  destruct Hok as (_ & Hlikes & _). by eapply Hlikes.
Qed.

Lemma create_post_ok X uid req w : ok w → ok (create_post X uid req w).2.
Proof.
  intros Hok. unfold create_post. case_match; [done|]. wp_run. ok_write.
  apply db_ok_save_post; [done|]. simpl. constructor.
Qed.

Lemma delete_post_ok X id uid req w : ok w → ok (delete_post X id uid req w).2.
Proof.
  intros Hok. unfold delete_post. wp_run. ok_write.
  by apply db_ok_remove_post.
Qed.

Lemma add_comment_ok X id uid req w : ok w → ok (add_comment X id uid req w).2.
Proof.
  intros Hok. unfold add_comment. case_match; [done|]. wp_run. ok_write.
  apply db_ok_save_post; [done|]. simpl.
  destruct Hok as (_ & Hlikes & _). by eapply Hlikes.
Qed.

Lemma delete_comment_ok X id cid uid req w :
  ok w → ok (delete_comment X id cid uid req w).2.
Proof.
  intros Hok. unfold delete_comment. wp_run. ok_write.
  apply db_ok_save_post; [done|]. simpl.
  destruct Hok as (_ & Hlikes & _). by eapply Hlikes.
Qed.

Lemma lookup_set_if_ne {V} (inj : string → V) k v (o : gmap string V) k' :
  k ≠ k' → set_if inj k v o !! k' = o !! k'.
Proof.
  intros Hne. unfold set_if. destruct v as [s|]; [|done].
  destruct (Js.truthy s); [|done]. by rewrite lookup_insert_ne.
Qed.


Ltac skip_fields :=
  repeat first [ rewrite lookup_insert_ne by congruence
               | rewrite lookup_set_if_ne by congruence ].

Lemma profileFields_user uid b :
  profileFields uid b !! "user" = Some (VStr uid).
Proof.
  unfold profileFields. cbn zeta. skip_fields. apply lookup_singleton_eq.
Qed.

Lemma upsert_profile_ok X uid req w : ok w → ok (upsert_profile X uid req w).2.
Proof.
  intros Hok. unfold upsert_profile. case_match; [done|]. wp_run; ok_write.
  - match goal with H : findOne _ _ = Some _ |- _ =>
      apply findOne_Some in H as [Hk Hq] end.
    apply of_user_true in Hq.
    eapply db_ok_update_profile; [done..|].
    unfold profile_user in *. cbn [profile_fields set_profile_fields].
    rewrite Hq. apply lookup_union_Some_l, profileFields_user.
  - eapply db_ok_new_profile; [done| |apply profileFields_user].
    by destruct (findOne _ _).
Qed.

Lemma delete_account_ok uid req w : ok w → ok (delete_account uid req w).2.
Proof.
  intros Hok. unfold delete_account. wp_run; ok_write.
  by apply db_ok_set_users, db_ok_remove_profile.
Qed.

Lemma save_read_profile_ok uid d p p' :
  db_ok d → snd <$> findOne (of_user uid) (profiles d) = Some p →
  profile_id p' = profile_id p → profile_user p' = profile_user p →
  db_ok (set_profiles (<[profile_id p' := p']> (profiles d)) d).
Proof.
  intros Hok Hfind Hid Hu.
  destruct (findOne _ _) as [[k q]|] eqn:E; simplify_eq/=.
  apply findOne_Some in E as [Hk _].
  rewrite Hid. pose proof Hok as ([_ Hprof] & _).
  rewrite (Hprof _ _ Hk). by eapply db_ok_update_profile.
Qed.

Lemma add_experience_ok X uid req w : ok w → ok (add_experience X uid req w).2.
Proof.
  intros Hok. unfold add_experience. case_match; [done|]. wp_run. ok_write.
  by eapply save_read_profile_ok.
Qed.

Lemma add_education_ok X uid req w : ok w → ok (add_education X uid req w).2.
Proof.
  intros Hok. unfold add_education. case_match; [done|]. wp_run. ok_write.
  by eapply save_read_profile_ok.
Qed.

Lemma delete_experience_ok exp_id uid req w :
  ok w → ok (delete_experience exp_id uid req w).2.
Proof.
  intros Hok. unfold delete_experience. wp_run. ok_write.
  by eapply save_read_profile_ok.
Qed.

Lemma delete_education_ok edu_id uid req w :
  ok w → ok (delete_education edu_id uid req w).2.
Proof.
  intros Hok. unfold delete_education. wp_run. ok_write.
  by eapply save_read_profile_ok.
Qed.

Lemma login_db X req w : db (login X req w).2 = db w.
Proof.
  unfold login. case_match; [done|].
  apply (wp_try_catch (λ w', db w' = db w)).
  unfold User_findOne_email. repeat wp_step; done.
Qed.

Lemma auth_db X req w : db (auth X req w).2 = db w.
Proof. unfold auth. by repeat case_match. Qed.

Lemma guarded_ok X h req w :
  (∀ uid w', ok w' → ok (h uid req w').2) →
  ok w → ok (guarded X h req w).2.
Proof.
  intros Hh Hok. unfold guarded.
  pose proof (auth_db X req w) as Hdb.
  destruct (auth X req w) as [[r|uid] w']; simpl in *.
  - unfold ok. by rewrite Hdb.
  - apply Hh. unfold ok. by rewrite Hdb.
Qed.

Lemma handle_ok X r req w : ok w → ok (handle X r req w).2.
Proof.
  intros Hok. destruct r; simpl.
  - unfold ok. by rewrite login_db.
  - apply guarded_ok; [|done]. intros. by apply create_post_ok.
  - apply guarded_ok; [|done]. intros. by apply delete_post_ok.
  - apply guarded_ok; [|done]. intros. by apply like_ok.
  - apply guarded_ok; [|done]. intros. by apply unlike_ok.
  - apply guarded_ok; [|done]. intros. by apply add_comment_ok.
  - apply guarded_ok; [|done]. intros. by apply delete_comment_ok.
  - apply guarded_ok; [|done]. intros. by apply upsert_profile_ok.
  - apply guarded_ok; [|done]. intros. by apply delete_account_ok.
  - apply guarded_ok; [|done]. intros. by apply add_experience_ok.
  - apply guarded_ok; [|done]. intros. by apply delete_experience_ok.
  - apply guarded_ok; [|done]. intros. by apply add_education_ok.
  - apply guarded_ok; [|done]. intros. by apply delete_education_ok.
Qed.

(** Every world the server can be in satisfies the store invariant. *)
Lemma reachable_ok X w : reachable X w → db_ok (db w).
Proof.
  induction 1 as [w Hp Ho|w w' _ IH [Hp Ho]|w r req _ IH].
  - unfold_db_ok. rewrite Hp, Ho. repeat split; intros *; by rewrite ?lookup_empty.
  - revert IH. unfold_db_ok. by rewrite Hp, Ho.
  - by apply handle_ok.
Qed.

(** ** Running a handler body *)

Ltac run :=
  unfold try_catch, Post_findById, Post_save, Post_remove, User_findById,
    User_findOne_email, User_findOneAndRemove, Profile_findOne, Profile_save,
    Profile_findOneAndUpdate, Profile_findOneAndRemove, deref;
  unfold mbind, M_bind, mret, M_ret, get_db, put_db, respond, throw, now,
    emit, freshId;
  cbn beta iota.


(** ** Posts: likes on a missing post *)




(** ** Posts: deleting a comment *)

(** [find] returns the first element that satisfies the test. *)
Lemma find_first {A} (f : A → bool) l1 x l2 :
  Forall (λ y, f y = false) l1 → f x = true →
  Js.find f (l1 ++ x :: l2) = Some x.
Proof.
  intros Hl1 Hx. induction Hl1 as [|y l1 Hy _ IH]; simpl.
  - by rewrite Hx.
  - by rewrite Hy.
Qed.

Lemma find_none_iff {A} (f : A → bool) l :
  Js.find f l = None ↔ Forall (λ y, f y = false) l.
Proof.
  induction l as [|y l IH]; simpl.
  - split; [constructor|done].
  - destruct (f y) eqn:Hy.
    + split; [done|]. intros H. inversion_clear H. congruence.
    + rewrite IH. split; [by constructor|]. by intros H; inversion_clear H.
Qed.

Lemma filter_not_id cid l :
  Js.filter (λ c, negb (String.eqb (comment_id c) cid)) l
  = filter (λ c, comment_id c ≠ cid) l.
Proof.
  induction l as [|c l IH]; [done|]. simpl. rewrite IH.
  destruct (String.eqb_spec (comment_id c) cid) as [He|He]; simpl.
  - by rewrite filter_cons_False by naive_solver.
  - by rewrite filter_cons_True.
Qed.

(** C7: deleting a comment of a stored post.  When no comment has the
    identifier, the answer is 404 and nothing changes.  When the first
    comment with the identifier was written by somebody else, the answer is
    401 and nothing changes, so the comment stays.  When the authenticated
    identity wrote it, the post is saved with its comments minus those with
    the identifier, and the remaining comments are sent back. *)
Theorem delete_comment_spec X id cid uid req w post :
  castObjectId X id = true →
  posts (db w) !! id = Some post →
  post_id post = id →
  (Forall (λ c, comment_id c ≠ cid) (post_comments post) →
     delete_comment X id cid uid req w
       = (mkResponse 404 (JMsg "Comment does not exist"), w))
  ∧ (∀ before c after,
       post_comments post = before ++ c :: after →
       Forall (λ c', comment_id c' ≠ cid) before →
       comment_id c = cid →
       (comment_user c ≠ uid →
          delete_comment X id cid uid req w
            = (mkResponse 401 (JMsg "User not authorized"), w))
       ∧ (comment_user c = uid →
          let comments :=
            filter (λ c', comment_id c' ≠ cid) (post_comments post) in
          delete_comment X id cid uid req w
            = (mkResponse 200 (JComments comments),
               set_db (set_posts
                         (<[id := set_post_comments comments post]>
                            (posts (db w)))
                         (db w)) w)
          ∧ (c ∉ comments)
          ∧ (∀ c', comment_id c' ≠ cid →
               (c' ∈ comments ↔ c' ∈ post_comments post))
          ∧ comments `sublist_of` post_comments post)).
Proof.
  intros Hcast Hpost Hid. split.
  - intros Hnone.
    assert (Js.find (λ c', String.eqb (comment_id c') cid) (post_comments post)
            = None) as Hfind.
    { apply find_none_iff.
      eapply Forall_impl; [exact Hnone|]. intros c Hc. simpl in Hc.
      by destruct (String.eqb_spec (comment_id c) cid). }
    unfold delete_comment. run. rewrite Hcast, Hpost.
    cbn beta iota. by rewrite Hfind.
  - intros before c after Hl Hbefore Hc.
    assert (Js.find (λ c', String.eqb (comment_id c') cid) (post_comments post)
            = Some c) as Hfind.
    { rewrite Hl. apply find_first.
      - eapply Forall_impl; [exact Hbefore|]. intros c' Hc'. simpl in Hc'.
        by destruct (String.eqb_spec (comment_id c') cid).
      - by apply String.eqb_eq. }
    split.
    + intros Hu. unfold delete_comment. run. rewrite Hcast, Hpost.
      cbn beta iota. rewrite Hfind.
      by destruct (String.eqb_spec (comment_user c) uid).
    + intros Hu. cbn zeta. split; [|split; [|split]].
      * unfold delete_comment. run. rewrite Hcast, Hpost.
        cbn beta iota. rewrite Hfind.
        destruct (String.eqb_spec (comment_user c) uid); [|done].
        cbn. rewrite filter_not_id. by rewrite Hid.
      * rewrite list_elem_of_filter. intros [Hn _]. by apply Hn.
      * intros c' Hc'. rewrite list_elem_of_filter.
        split; [by intros [_ ?]|by split].
      * apply sublist_filter.
Qed.

(** ** Posts: like and unlike *)

Lemma like_new X id uid req w post :
  castObjectId X id = true → posts (db w) !! id = Some post →
  uid ∉ like_user <$> post_likes post →
  let likes := mkLike (newObjectId X (supply w)) uid :: post_likes post in
  like X id uid req w
  = (mkResponse 200 (JLikes likes),
     mkWorld (set_posts (<[post_id post := set_post_likes likes post]>
                           (posts (db w))) (db w))
             (clock w) (supply w + 1)%N (trace w)).
Proof.
  intros Hcast Hpost Hnew. unfold like. run. rewrite Hcast, Hpost.
  cbn beta iota.
  apply liked_by_filter_nil in Hnew. by rewrite Hnew.
Qed.

(** C3: liking a post that the identity already likes is answered with 400
    [Post already liked] and changes nothing, so the like list keeps its
    length; and in every world the server can reach, no post has two likes
    of the same user. *)
Theorem like_at_most_once X :
  (∀ id uid req w post,
      castObjectId X id = true → posts (db w) !! id = Some post →
      uid ∈ like_user <$> post_likes post →
      like X id uid req w = (mkResponse 400 (JMsg "Post already liked"), w))
  ∧ (∀ w, reachable X w →
      ∀ id post, posts (db w) !! id = Some post →
                 NoDup (like_user <$> post_likes post)).
Proof.
  split.
  - intros id uid req w post Hcast Hpost Hin. unfold like. run.
    rewrite Hcast, Hpost. cbn beta iota.
    apply liked_by_filter_length in Hin. by rewrite Hin.
  - intros w Hw id post Hpost.
    destruct (reachable_ok X w Hw) as (_ & Hlikes & _). by eapply Hlikes.
Qed.

Lemma unlike_absent X id uid req w post :
  castObjectId X id = true → posts (db w) !! id = Some post →
  uid ∉ like_user <$> post_likes post →
  unlike X id uid req w
  = (mkResponse 400 (JMsg "Post has not yet been liked"), w).
Proof.
  intros Hcast Hpost Hnew. unfold unlike. run. rewrite Hcast, Hpost.
  cbn beta iota. apply liked_by_filter_nil in Hnew. by rewrite Hnew.
Qed.

Lemma liked_by_filter_length_pos uid l :
  uid ∈ like_user <$> l →
  (length (Js.filter (liked_by uid) l) =? 0)%nat = false.
Proof.
  intros Hin. apply liked_by_filter_length, Nat.ltb_lt in Hin.
  apply Nat.eqb_neq. lia.
Qed.

(** C2: what unlike does on a post with two or more likes, one of them the
    identity's: the removal index is an array, which reads as position 0, so
    the first like of the list is removed, whoever gave it, and the others
    stay, among them the identity's own like when it is not the first. *)
Theorem unlike_removes_first_like X id uid req w post first second rest :
  castObjectId X id = true → posts (db w) !! id = Some post →
  post_likes post = first :: second :: rest →
  uid ∈ like_user <$> post_likes post →
  unlike X id uid req w
  = (mkResponse 200 (JLikes (second :: rest)),
     set_db (set_posts
               (<[post_id post := set_post_likes (second :: rest) post]>
                  (posts (db w))) (db w)) w).
Proof.
  intros Hcast Hpost Hlikes Hin. unfold unlike. run. rewrite Hcast, Hpost.
  cbn beta iota. rewrite (liked_by_filter_length_pos _ _ Hin).
  rewrite Hlikes. cbn [map Js.toIntegerOrInfinity_array].
  by rewrite splice_zero.
Qed.

Lemma prefix_refl s : String.prefix s s = true.
Proof.
  induction s as [|c s IH]; [done|]. simpl.
  by destruct (ascii_dec c c).
Qed.

Lemma str_indexOf_self s : Js.str_indexOf s s = 0.
Proof.
  unfold Js.str_indexOf. destruct s as [|c s]; [done|].
  cbn [String.index]. by rewrite prefix_refl.
Qed.

(** Where unlike does what is asked: the identity's like is the only one. *)
Lemma unlike_only_like X id uid req w post l :
  castObjectId X id = true → posts (db w) !! id = Some post →
  post_likes post = [l] → like_user l = uid →
  unlike X id uid req w
  = (mkResponse 200 (JLikes []),
     set_db (set_posts (<[post_id post := set_post_likes [] post]>
                          (posts (db w))) (db w)) w).
Proof.
  intros Hcast Hpost Hlikes <-. unfold unlike. run. rewrite Hcast, Hpost.
  cbn beta iota. rewrite Hlikes. cbn [Js.filter List.filter].
  unfold liked_by. rewrite String.eqb_refl.
  cbn [map Js.toIntegerOrInfinity_array length Nat.eqb].
  by rewrite str_indexOf_self.
Qed.

(** ** Profiles: removing an experience or education entry *)

(** Where the removal does what is asked: the identifier is in the list, and
    the first entry that has it is removed. *)
Lemma delete_experience_present exp_id uid req w profile :
  snd <$> findOne (of_user uid) (profiles (db w)) = Some profile →
  exp_id ∈ entry_id <$> profile_experience profile →
  ∃ i, (entry_id <$> profile_experience profile) !! i = Some exp_id
    ∧ (∀ j, (j < i)%nat →
         (entry_id <$> profile_experience profile) !! j ≠ Some exp_id)
    ∧ let profile' :=
        set_profile_experience (delete i (profile_experience profile))
                               profile in
      delete_experience exp_id uid req w
      = (mkResponse 200 (JProfile profile'),
         set_db (set_profiles (<[profile_id profile := profile']>
                                 (profiles (db w))) (db w)) w).
Proof.
  intros Hfind Hin.
  destruct (indexOf_present _ _ Hin) as [H0 Hi].
  exists (Z.to_nat (Js.indexOf exp_id (entry_id <$> profile_experience profile))).
  split; [done|]. split; [intros j Hj; by apply indexOf_first|].
  cbn zeta. unfold delete_experience. run. rewrite Hfind. cbn beta iota.
  change (map entry_id (profile_experience profile))
    with (entry_id <$> profile_experience profile).
  rewrite splice_inside; [done|].
  split; [done|]. apply lookup_lt_Some in Hi.
  rewrite length_fmap in Hi. lia.
Qed.

(** C1: what the removal does when the identifier is not in the list:
    [indexOf] returns [-1], and removing one element at [-1] removes the last
    entry of the list.  The request is answered with 200 and the shortened
    list is saved.  Experience and education behave alike. *)
Theorem delete_entry_absent_removes_last eid uid req w profile :
  snd <$> findOne (of_user uid) (profiles (db w)) = Some profile →
  (eid ∉ entry_id <$> profile_experience profile →
     let experience := profile_experience profile in
     let profile' :=
       set_profile_experience (take (length experience - 1) experience)
                              profile in
     delete_experience eid uid req w
     = (mkResponse 200 (JProfile profile'),
        set_db (set_profiles (<[profile_id profile := profile']>
                                (profiles (db w))) (db w)) w))
  ∧ (eid ∉ entry_id <$> profile_education profile →
     let education := profile_education profile in
     let profile' :=
       set_profile_education (take (length education - 1) education)
                             profile in
     delete_education eid uid req w
     = (mkResponse 200 (JProfile profile'),
        set_db (set_profiles (<[profile_id profile := profile']>
                                (profiles (db w))) (db w)) w)).
Proof.
  intros Hfind. split; intros Hout; cbn zeta.
  - unfold delete_experience. run. rewrite Hfind. cbn beta iota.
    change (map entry_id (profile_experience profile))
      with (entry_id <$> profile_experience profile).
    by rewrite (indexOf_absent _ _ Hout), splice_minus_one.
  - unfold delete_education. run. rewrite Hfind. cbn beta iota.
    change (map entry_id (profile_education profile))
      with (entry_id <$> profile_education profile).
    by rewrite (indexOf_absent _ _ Hout), splice_minus_one.
Qed.

(** ** Profiles: deleting the account *)

(** C9: in every world the server can reach, deleting the account of an
    identity answers 200 [User deleted]; afterwards the profiles are those
    of the other users, unchanged, the user collection has lost the document
    of the identity and nothing else, and the post collection, the posts of
    the deleted user included, is as it was. *)
Theorem delete_account_spec X uid req w :
  reachable X w →
  let w' := (delete_account uid req w).2 in
  (delete_account uid req w).1 = mkResponse 200 (JMsg "User deleted")
  ∧ (∀ k p, profiles (db w') !! k = Some p
            ↔ profiles (db w) !! k = Some p
              ∧ profile_user p ≠ Some (VStr uid))
  ∧ users (db w') = delete uid (users (db w))
  ∧ posts (db w') = posts (db w).
Proof.
  intros Hw. apply reachable_ok in Hw as (_ & _ & Hone).
  cbn zeta. unfold delete_account. run.
  destruct (findOne (of_user uid) (profiles (db w))) as [[k0 p0]|] eqn:E;
    cbn; (split; [done|]); (split; [|done]).
  - apply findOne_Some in E as [Hk0 Hu0]. apply of_user_true in Hu0.
    intros k p. rewrite lookup_delete_Some. split.
    + intros [Hne Hk]. split; [done|]. intros Hu.
      apply Hne. by eapply Hone.
    + intros [Hk Hu]. split; [|done]. intros <-. congruence.
  - intros k p. split; [|by intros [? _]].
    intros Hk. split; [done|]. intros Hu%of_user_true.
    by rewrite (findOne_None _ _ _ _ E Hk) in Hu.
Qed.

(** ** Login *)



Lemma login_success X req w email password k user :
  req_body req !! "email" = Some email → isEmail X email = true →
  req_body req !! "password" = Some password →
  findOne (λ u, String.eqb (user_email u) email) (users (db w))
    = Some (k, user) →
  bcrypt_compare X password (user_password user) = true →
  login X req w
  = (mkResponse 200
       (JToken (jwt_sign X (user_id user) (jwtSecret X) 360000 (clock w))),
     log_event (EvSign (user_id user) (jwtSecret X) 360000) w).
Proof.
  intros He Hv Hp Hsome Hcmp. unfold login, check_isEmail, check_exists.
  rewrite He, Hp, Hv. cbn [app isEmpty negb]. run. rewrite Hsome.
  cbn. by rewrite Hcmp.
Qed.


(** ** The guard *)

Lemma auth_no_token X req w :
  req_headers req !! "x-auth-token" = None
  ∨ req_headers req !! "x-auth-token" = Some "" →
  auth X req w
  = (inl (mkResponse 401 (JMsg "No token, authorisation denied")), w).
Proof. intros Hno. unfold auth. by destruct Hno as [H|H]; rewrite H. Qed.

Lemma auth_unverified X req w t :
  req_headers req !! "x-auth-token" = Some t → t ≠ "" →
  jwt_verify X t (jwtSecret X) (clock w) = None →
  auth X req w
  = (inl (mkResponse 401 (JMsg "Token is not valid")),
     log_event (EvVerify t (jwtSecret X)) w).
Proof.
  intros Ht Hne Hver. unfold auth. rewrite Ht.
  destruct t; [done|]. cbn. by rewrite Hver.
Qed.

(** C4: a request without a token in the [x-auth-token] header (the header
    is missing, or empty) is answered with 401 [No token, authorisation
    denied] and the world is untouched: the trace shows no call to the token
    library and the store is as it was.  A request whose token does not
    verify is answered with 401 [Token is not valid]; the one call to
    [verify] is all that happened, and the store is as it was.  In both cases
    the handler behind the guard does not run. *)
Theorem auth_rejects X req w :
  (req_headers req !! "x-auth-token" = None
   ∨ req_headers req !! "x-auth-token" = Some "" →
     auth X req w
       = (inl (mkResponse 401 (JMsg "No token, authorisation denied")), w)
     ∧ trace (auth X req w).2 = trace w
     ∧ (∀ h, guarded X h req w
             = (mkResponse 401 (JMsg "No token, authorisation denied"), w)))
  ∧ (∀ t, req_headers req !! "x-auth-token" = Some t → t ≠ "" →
          jwt_verify X t (jwtSecret X) (clock w) = None →
     auth X req w
       = (inl (mkResponse 401 (JMsg "Token is not valid")),
          log_event (EvVerify t (jwtSecret X)) w)
     ∧ db (auth X req w).2 = db w
     ∧ (∀ h, guarded X h req w
             = (mkResponse 401 (JMsg "Token is not valid"),
                log_event (EvVerify t (jwtSecret X)) w))).
Proof.
  split.
  - intros Hno. pose proof (auth_no_token X req w Hno) as Hauth.
    split; [done|]. split; [by rewrite Hauth|].
    intros h. unfold guarded. by rewrite Hauth.
  - intros t Ht Hne Hver.
    pose proof (auth_unverified X req w t Ht Hne Hver) as Hauth.
    split; [done|]. split; [by rewrite Hauth|].
    intros h. unfold guarded. by rewrite Hauth.
Qed.

Lemma auth_verified X req w t d :
  req_headers req !! "x-auth-token" = Some t → t ≠ "" →
  jwt_verify X t (jwtSecret X) (clock w) = Some d →
  auth X req w
  = (inr (decoded_user d), log_event (EvVerify t (jwtSecret X)) w).
Proof.
  intros Ht Hne Hver. unfold auth. rewrite Ht.
  destruct t; [done|]. cbn. by rewrite Hver.
Qed.

(** ** Tokens *)

Lemma login_token_inv X req w tok :
  (login X req w).1 = mkResponse 200 (JToken tok) →
  ∃ k user,
    users (db w) !! k = Some user
    ∧ tok = jwt_sign X (user_id user) (jwtSecret X) 360000 (clock w).
Proof.
  unfold login. case_match; [done|]. run.
  destruct (req_body req !! "email") as [email|]; [|done].
  destruct (req_body req !! "password") as [password|]; [|done].
  cbn beta iota.
  destruct (findOne _ _) as [[k user]|] eqn:E; [|done]. cbn.
  apply findOne_Some in E as [Hk _].
  destruct (bcrypt_compare _ _ _); cbn; [|done].
  intros [= <-]. by exists k, user.
Qed.

(** C5: under the contract of the token library, every token the login
    route returns was issued for a stored user, carries that user's
    identifier and expires 100 hours (360000 seconds) after the clock of the
    login; presented to the guard before that moment it resolves to the
    user's identifier, and from that moment on the guard answers 401.  And
    whatever its origin, a token whose expiration has passed is never
    accepted by the guard. *)
Theorem token_round_trip X decode :
  jwt_contract X decode →
  (∀ req w tok,
      (login X req w).1 = mkResponse 200 (JToken tok) →
      ∃ k user,
        users (db w) !! k = Some user
        ∧ decode tok
          = Some (mkDecoded (user_id user) (clock w) (clock w + 100 * 3600)%N)
        ∧ ∀ req' w',
            req_headers req' !! "x-auth-token" = Some tok →
            ((clock w' < clock w + 100 * 3600)%N →
               (auth X req' w').1 = inr (user_id user))
            ∧ ((clock w + 100 * 3600 ≤ clock w')%N →
               (auth X req' w').1
               = inl (mkResponse 401 (JMsg "Token is not valid"))))
  ∧ (∀ tok d req' w',
      req_headers req' !! "x-auth-token" = Some tok →
      decode tok = Some d → (decoded_exp d ≤ clock w')%N →
      ∃ r, (auth X req' w').1 = inl r ∧ status r = 401).
Proof.
  intros (Hne & Hdec & Hvalid & Hver). split.
  - intros req w tok (k & user & Hk & ->)%login_token_inv.
    exists k, user. split; [done|]. split; [apply Hdec|].
    intros req' w' Hhdr. split.
    + intros Hlt.
      rewrite (auth_verified X req' w' _ _ Hhdr (Hne _ _ _ _)
                 (Hvalid _ _ _ _ _ Hlt)). done.
    + intros Hge.
      rewrite (auth_unverified X req' w' _ Hhdr (Hne _ _ _ _)); [done|].
      destruct (jwt_verify X _ _ _) as [d|] eqn:E; [|done].
      apply Hver in E as [Hd Hexp]. rewrite Hdec in Hd.
      injection Hd as <-. simpl in Hexp. lia.
  - intros tok d req' w' Hhdr Hd Hexp.
    unfold auth. rewrite Hhdr. destruct (Js.truthy tok); [|by eexists].
    cbn. destruct (jwt_verify X _ _ _) as [d'|] eqn:E; [|by eexists].
    apply Hver in E as [Hd' Hexp']. rewrite Hd in Hd'. injection Hd' as <-.
    lia.
Qed.

(** ** Profiles: the field set of the upsert route *)







(** ** The reference implementation meets the token contract *)

Lemma decP_encP p r : Ref.decP (Ref.encP p +:+ r) = Some (p, r).
Proof.
  induction p as [p IH|p IH|]; simpl; rewrite ?append_cons; simpl;
    by rewrite ?IH.
Qed.

Lemma decN_encN n r : Ref.decN (Ref.encN n +:+ r) = Some (n, r).
Proof.
  destruct n as [|p]; [done|]. unfold Ref.encN, Ref.decN.
  rewrite decP_encP.
  by destruct p; simpl; rewrite ?append_cons.
Qed.

Lemma strip_prefix_app s r : Ref.strip_prefix s (s +:+ r) = Some r.
Proof.
  induction s as [|c s IH]; [by destruct r|].
  rewrite append_cons. simpl. by rewrite decide_True.
Qed.

Lemma strip_prefix_skip s r u :
  Ref.strip_prefix s r = Some u → Ref.skip (String.length s) r = u.
Proof.
  revert r. induction s as [|c s IH]; intros r.
  - destruct r; simpl; congruence.
  - destruct r as [|a r]; simpl; [done|]. case_decide; [apply IH|done].
Qed.

Lemma ref_decode_with_sign check u s e t :
  Ref.decode_with check (Ref.sign u s e t)
  = check (N.of_nat (String.length s)) (s +:+ u)
      ≫= λ u', Some (mkDecoded u' t (t + e)%N).
Proof.
  unfold Ref.decode_with, Ref.sign.
  rewrite decN_encN. cbn. rewrite decN_encN. cbn. by rewrite decN_encN.
Qed.

Lemma ref_verify_sound tok s t d :
  Ref.verify tok s t = Some d → Ref.decode tok = Some d ∧ (t < decoded_exp d)%N.
Proof.
  unfold Ref.verify, Ref.decode, Ref.decode_with.
  destruct tok as [|c tok]; [done|].
  destruct (decide (c = "J"%char)) as [->|Hc].
  - destruct (Ref.decN tok) as [[iat r1]|]; [cbn|done].
    destruct (Ref.decN r1) as [[exp r2]|]; [cbn|done].
    destruct (Ref.decN r2) as [[n r3]|]; [cbn|done].
    case_decide as Hn; [|done]. subst n.
    destruct (Ref.strip_prefix s r3) as [u|] eqn:E; [cbn|done].
    case_decide; [|done]. intros [= <-].
    by rewrite Nat2N.id, (strip_prefix_skip _ _ _ E).
  - destruct c as [[] [] [] [] [] [] [] []]; try done.
Qed.

Lemma ref_contract : jwt_contract Ref.X Ref.decode.
Proof.
  split; [|split; [|split]].
  - done.
  - intros u s e t. unfold Ref.decode. cbn [jwt_sign Ref.X].
    rewrite ref_decode_with_sign. cbn.
    rewrite Nat2N.id, (strip_prefix_skip s _ u); [done|].
    apply strip_prefix_app.
  - intros u s e t t' Hlt. cbn [jwt_sign jwt_verify Ref.X]. unfold Ref.verify.
    rewrite ref_decode_with_sign. cbn.
    rewrite decide_True by done. rewrite strip_prefix_app. cbn.
    by rewrite decide_True.
  - intros tok s t' d. apply ref_verify_sound.
Qed.

(** ** The theorems on the sample data *)

Ltac compute_true :=
  match goal with
  | |- ?P => apply (bool_decide_unpack P); vm_compute; exact I
  end.

Lemma sample_reachable : reachable Ref.X Sample.after_like.
Proof.
  do 3 apply reachable_handle. by apply reachable_init.
Defined.

(** Removing an experience entry that Alice's profile does not have drops
    her last entry, the internship; the same on the education list drops her
    only school. *)
Lemma delete_entry_absent_removes_last_witness :
  snd <$> findOne (of_user Sample.alice_id) (profiles (db Sample.world))
    = Some Sample.profile1
  ∧ (Sample.absent_id ∉ entry_id <$> profile_experience Sample.profile1)
  ∧ (Sample.absent_id ∉ entry_id <$> profile_education Sample.profile1)
  ∧ delete_experience Sample.absent_id Sample.alice_id
      (Sample.request None Sample.no_body) Sample.world
    = (mkResponse 200
         (JProfile (set_profile_experience [Sample.job1] Sample.profile1)),
       set_db (set_profiles
                 (<[Sample.profile_id1 :=
                      set_profile_experience [Sample.job1] Sample.profile1]>
                    (profiles (db Sample.world)))
                 (db Sample.world)) Sample.world)
  ∧ delete_education Sample.absent_id Sample.alice_id
      (Sample.request None Sample.no_body) Sample.world
    = (mkResponse 200
         (JProfile (set_profile_education [] Sample.profile1)),
       set_db (set_profiles
                 (<[Sample.profile_id1 :=
                      set_profile_education [] Sample.profile1]>
                    (profiles (db Sample.world)))
                 (db Sample.world)) Sample.world).
Proof.
  assert (snd <$> findOne (of_user Sample.alice_id)
                    (profiles (db Sample.world)) = Some Sample.profile1)
    as Hfind by (vm_compute; reflexivity).
  assert (Sample.absent_id ∉ entry_id <$> profile_experience Sample.profile1)
    as Hexp by compute_true.
  assert (Sample.absent_id ∉ entry_id <$> profile_education Sample.profile1)
    as Hedu by compute_true.
  destruct (delete_entry_absent_removes_last Sample.absent_id Sample.alice_id
              (Sample.request None Sample.no_body) Sample.world
              Sample.profile1 Hfind) as [H1 H2].
  split; [exact Hfind|]. split; [exact Hexp|]. split; [exact Hedu|].
  split; [exact (H1 Hexp)|exact (H2 Hedu)].
Defined.

(** Bob unlikes the sample post: Alice's like, the first of the list, is
    removed, and Bob's own like stays. *)
Lemma unlike_removes_first_like_witness :
  castObjectId Ref.X Sample.post_id1 = true
  ∧ posts (db Sample.world) !! Sample.post_id1 = Some Sample.post1
  ∧ post_likes Sample.post1 = [Sample.like_of_alice; Sample.like_of_bob]
  ∧ Sample.bob_id ∈ like_user <$> post_likes Sample.post1
  ∧ unlike Ref.X Sample.post_id1 Sample.bob_id
      (Sample.request None Sample.no_body) Sample.world
    = (mkResponse 200 (JLikes [Sample.like_of_bob]),
       set_db (set_posts
                 (<[Sample.post_id1 :=
                      set_post_likes [Sample.like_of_bob] Sample.post1]>
                    (posts (db Sample.world)))
                 (db Sample.world)) Sample.world).
Proof.
  assert (castObjectId Ref.X Sample.post_id1 = true) as Hcast by reflexivity.
  assert (posts (db Sample.world) !! Sample.post_id1 = Some Sample.post1)
    as Hpost by (vm_compute; reflexivity).
  assert (post_likes Sample.post1 = [Sample.like_of_alice; Sample.like_of_bob])
    as Hlikes by reflexivity.
  assert (Sample.bob_id ∈ like_user <$> post_likes Sample.post1)
    as Hin by compute_true.
  repeat (split; [assumption|]).
  exact (unlike_removes_first_like Ref.X Sample.post_id1 Sample.bob_id
           (Sample.request None Sample.no_body) Sample.world Sample.post1
           Sample.like_of_alice Sample.like_of_bob [] Hcast Hpost Hlikes Hin).
Defined.

(** Bob likes the sample post a second time; and the world after Alice's
    profile, her post and Bob's like is one the server can reach. *)
Lemma like_at_most_once_witness :
  (castObjectId Ref.X Sample.post_id1 = true
   ∧ posts (db Sample.world) !! Sample.post_id1 = Some Sample.post1
   ∧ Sample.bob_id ∈ like_user <$> post_likes Sample.post1
   ∧ like Ref.X Sample.post_id1 Sample.bob_id
       (Sample.request None Sample.no_body) Sample.world
     = (mkResponse 400 (JMsg "Post already liked"), Sample.world))
  ∧ (reachable Ref.X Sample.after_like
     ∧ ∀ id post, posts (db Sample.after_like) !! id = Some post →
                  NoDup (like_user <$> post_likes post)).
Proof.
  destruct (like_at_most_once Ref.X) as [Hlike Hinv].
  assert (castObjectId Ref.X Sample.post_id1 = true) as Hcast by reflexivity.
  assert (posts (db Sample.world) !! Sample.post_id1 = Some Sample.post1)
    as Hpost by (vm_compute; reflexivity).
  assert (Sample.bob_id ∈ like_user <$> post_likes Sample.post1)
    as Hin by compute_true.
  split.
  - repeat (split; [assumption|]).
    exact (Hlike _ _ (Sample.request None Sample.no_body) _ _ Hcast Hpost Hin).
  - split; [exact sample_reachable|]. exact (Hinv _ sample_reachable).
Defined.

(** A request without the header, one with an empty header and one with a
    token that is no token at all. *)
Lemma auth_rejects_witness :
  let bare := Sample.request None Sample.no_body in
  let bad := Sample.request (Some "garbage") Sample.no_body in
  req_headers bare !! "x-auth-token" = None
  ∧ req_headers bad !! "x-auth-token" = Some "garbage"
  ∧ "garbage" ≠ ""
  ∧ jwt_verify Ref.X "garbage" (jwtSecret Ref.X) (clock Sample.world) = None
  ∧ auth Ref.X bare Sample.world
    = (inl (mkResponse 401 (JMsg "No token, authorisation denied")),
       Sample.world)
  ∧ auth Ref.X bad Sample.world
    = (inl (mkResponse 401 (JMsg "Token is not valid")),
       log_event (EvVerify "garbage" (jwtSecret Ref.X)) Sample.world).
Proof.
  cbn zeta.
  assert (req_headers (Sample.request None Sample.no_body) !! "x-auth-token"
          = None) as Hbare by reflexivity.
  assert (req_headers (Sample.request (Some "garbage") Sample.no_body)
            !! "x-auth-token" = Some "garbage") as Hbad
    by (vm_compute; reflexivity).
  assert ("garbage" ≠ "") as Hne by discriminate.
  assert (jwt_verify Ref.X "garbage" (jwtSecret Ref.X) (clock Sample.world)
          = None) as Hver by reflexivity.
  repeat (split; [assumption|]).
  split.
  - destruct (auth_rejects Ref.X (Sample.request None Sample.no_body)
                Sample.world) as [H _].
    exact (proj1 (H (or_introl Hbare))).
  - destruct (auth_rejects Ref.X (Sample.request (Some "garbage") Sample.no_body)
                Sample.world) as [_ H].
    exact (proj1 (H _ Hbad Hne Hver)).
Defined.

(** Alice logs in at time 1000; her token is good at time 2000 and no
    longer at time 361000. *)
Lemma token_round_trip_witness :
  let credentials : gmap string string :=
    {[ "email" := "alice@example.com"; "password" := "wonderland" ]} in
  let late := mkWorld (db Sample.world) 361000 0 [] in
  jwt_contract Ref.X Ref.decode
  ∧ (login Ref.X (Sample.request None credentials) Sample.start).1
    = mkResponse 200 (JToken Sample.alice_token)
  ∧ req_headers (Sample.request (Some Sample.alice_token) Sample.no_body)
      !! "x-auth-token" = Some Sample.alice_token
  ∧ Ref.decode Sample.alice_token
    = Some (mkDecoded Sample.alice_id 1000 361000)
  ∧ (auth Ref.X (Sample.request (Some Sample.alice_token) Sample.no_body)
       Sample.world).1 = inr Sample.alice_id
  ∧ (auth Ref.X (Sample.request (Some Sample.alice_token) Sample.no_body)
       late).1 = inl (mkResponse 401 (JMsg "Token is not valid"))
  ∧ ∃ r, (auth Ref.X (Sample.request (Some Sample.alice_token) Sample.no_body)
            late).1 = inl r ∧ status r = 401.
Proof.
  cbn zeta.
  set (credentials := {[ "email" := "alice@example.com";
                         "password" := "wonderland" ]} : gmap string string).
  set (late := mkWorld (db Sample.world) 361000 0 []).
  set (req := Sample.request (Some Sample.alice_token) Sample.no_body).
  assert ((login Ref.X (Sample.request None credentials) Sample.start).1
          = mkResponse 200 (JToken Sample.alice_token)) as Hlogin
    by (vm_compute; reflexivity).
  assert (req_headers req !! "x-auth-token" = Some Sample.alice_token)
    as Hhdr by (vm_compute; reflexivity).
  assert (Ref.decode Sample.alice_token
          = Some (mkDecoded Sample.alice_id 1000 361000)) as Hdec
    by (vm_compute; reflexivity).
  destruct (token_round_trip Ref.X Ref.decode ref_contract) as [Hissued Hexpired].
  destruct (Hissued _ _ _ Hlogin) as (k & user & Hk & Hd & Hauth).
  assert (user_id user = Sample.alice_id) as Hu.
  { rewrite Hdec in Hd. by injection Hd. }
  destruct (Hauth req Sample.world Hhdr) as [Hgood _].
  destruct (Hauth req late Hhdr) as [_ Hlate].
  split; [exact ref_contract|]. repeat (split; [assumption|]).
  split; [rewrite <- Hu; apply Hgood; reflexivity|].
  split; [apply Hlate; discriminate|].
  apply (Hexpired _ _ req late Hhdr Hdec). discriminate.
Defined.


(** On the sample post: a comment identifier nobody has, Alice deleting
    Bob's comment, and Bob deleting his own. *)
Lemma delete_comment_spec_witness :
  let req := Sample.request None Sample.no_body in
  let cid := comment_id Sample.comment_of_bob in
  castObjectId Ref.X Sample.post_id1 = true
  ∧ posts (db Sample.world) !! Sample.post_id1 = Some Sample.post1
  ∧ post_id Sample.post1 = Sample.post_id1
  ∧ delete_comment Ref.X Sample.post_id1 Sample.absent_id Sample.bob_id req
      Sample.world
    = (mkResponse 404 (JMsg "Comment does not exist"), Sample.world)
  ∧ delete_comment Ref.X Sample.post_id1 cid Sample.alice_id req Sample.world
    = (mkResponse 401 (JMsg "User not authorized"), Sample.world)
  ∧ delete_comment Ref.X Sample.post_id1 cid Sample.bob_id req Sample.world
    = (mkResponse 200 (JComments []),
       set_db (set_posts
                 (<[Sample.post_id1 := set_post_comments [] Sample.post1]>
                    (posts (db Sample.world)))
                 (db Sample.world)) Sample.world).
Proof.
  cbn zeta.
  assert (castObjectId Ref.X Sample.post_id1 = true) as Hcast by reflexivity.
  assert (posts (db Sample.world) !! Sample.post_id1 = Some Sample.post1)
    as Hpost by (vm_compute; reflexivity).
  assert (post_id Sample.post1 = Sample.post_id1) as Hid by reflexivity.
  repeat (split; [assumption|]).
  split; [|split].
  - apply (delete_comment_spec Ref.X _ Sample.absent_id Sample.bob_id
             (Sample.request None Sample.no_body) _ _ Hcast Hpost Hid).
    repeat constructor. discriminate.
  - destruct (delete_comment_spec Ref.X _ (comment_id Sample.comment_of_bob)
                Sample.alice_id (Sample.request None Sample.no_body) _ _
                Hcast Hpost Hid) as [_ H].
    destruct (H [] Sample.comment_of_bob [] eq_refl (Forall_nil_2 _) eq_refl)
      as [H401 _].
    apply H401. discriminate.
  - destruct (delete_comment_spec Ref.X _ (comment_id Sample.comment_of_bob)
                Sample.bob_id (Sample.request None Sample.no_body) _ _
                Hcast Hpost Hid) as [_ H].
    destruct (H [] Sample.comment_of_bob [] eq_refl (Forall_nil_2 _) eq_refl)
      as [_ H200].
    exact (proj1 (H200 eq_refl)).
Defined.


(** Alice deletes her account after her profile, her post and Bob's like:
    her post is still there. *)
Lemma delete_account_spec_witness :
  let req := Sample.request None Sample.no_body in
  let w' := (delete_account Sample.alice_id req Sample.after_like).2 in
  reachable Ref.X Sample.after_like
  ∧ (delete_account Sample.alice_id req Sample.after_like).1
    = mkResponse 200 (JMsg "User deleted")
  ∧ (∀ k p, profiles (db w') !! k = Some p
            ↔ profiles (db Sample.after_like) !! k = Some p
              ∧ profile_user p ≠ Some (VStr Sample.alice_id))
  ∧ users (db w') = delete Sample.alice_id (users (db Sample.after_like))
  ∧ posts (db w') = posts (db Sample.after_like)
  ∧ post_user <$> posts (db w') !! Ref.oid 1 = Some Sample.alice_id.
Proof.
  cbn zeta.
  destruct (delete_account_spec Ref.X Sample.alice_id
              (Sample.request None Sample.no_body) Sample.after_like
              sample_reachable) as (Hr & Hp & Hu & Ho).
  split; [exact sample_reachable|].
  repeat (split; [assumption|]).
  rewrite Ho. vm_compute. reflexivity.
Defined.


(** An update that names neither the company nor any link keeps the stored
    company and replaces the stored links by the empty object. *)
Example upsert_update_keeps_company_resets_social :
  profile_fields
    <$> profiles
          (db (upsert_profile Ref.X Sample.alice_id
                 (Sample.request None
                    {[ "status" := "Developer"; "skills" := "js" ]})
                 Sample.linked_world).2) !! Sample.profile_id1
  = Some {[ "user" := VStr Sample.alice_id; "company" := VStr "Acme";
            "status" := VStr "Developer"; "skills" := VArr ["js"];
            "social" := VObj ∅ ]}.
Proof. vm_compute. reflexivity. Qed.

(** The two removals through their routes, with the tokens of the sample
    users: the experience list loses its last entry, and the like list loses
    Alice's like on Bob's request. *)
Example routes_on_sample_data :
  profile_experience
    <$> profiles
          (db (handle Ref.X (DELETE_profile_experience Sample.absent_id)
                 (Sample.request (Some Sample.alice_token) Sample.no_body)
                 Sample.world).2) !! Sample.profile_id1
  = Some [Sample.job1]
  ∧ post_likes
      <$> posts
            (db (handle Ref.X (PUT_posts_unlike Sample.post_id1)
                   (Sample.request (Some Sample.bob_token) Sample.no_body)
                   Sample.world).2) !! Sample.post_id1
    = Some [Sample.like_of_bob].
Proof. split; vm_compute; reflexivity. Qed.

(** * Further properties of the routes *)

(** ** Posts: creating, reading and deleting *)

Lemma check_not_empty_nil field msg req :
  check_not_empty field msg req = [] ↔ is_Some (given (req_body req) field).
Proof.
  unfold check_not_empty, given, Js.truthy_opt.
  destruct (req_body req !! field) as [s|]; [destruct (Js.truthy s)|];
    split; try done; try (by eexists); by intros [? ?].
Qed.

Lemma check_not_empty_given field msg req s :
  given (req_body req) field = Some s →
  check_not_empty field msg req = [] ∧ req_body req !! field = Some s.
Proof.
  intros Hs. split; [apply check_not_empty_nil; by eexists|].
  unfold given in Hs. destruct (req_body req !! field) as [s'|]; [|done].
  destruct (Js.truthy s'); by simplify_eq.
Qed.

Lemma check_not_empty_missing field msg req :
  given (req_body req) field = None →
  check_not_empty field msg req
  = [mkError msg (Some field) (req_body req !! field) (Some "body")].
Proof.
  unfold check_not_empty, validation_error, given, Js.truthy_opt.
  destruct (req_body req !! field) as [s|]; [|done].
  by destruct (Js.truthy s).
Qed.



(** X3: creating a post.  Without a non-empty text the answer is 400 with
    the one validation error and nothing changes; with a text but without a
    user document for the identity the answer is 500 and nothing changes;
    otherwise the new post is stored under a fresh identifier with the
    identity as author, the name and avatar copied from the user document,
    no like and no comment, and every other post stays. *)
Theorem create_post_spec X uid req w :
  (given (req_body req) "text" = None →
     create_post X uid req w
     = (mkResponse 400
          (JErrors [mkError "Text is required" (Some "text")
                            (req_body req !! "text") (Some "body")]), w))
  ∧ (∀ text,
       given (req_body req) "text" = Some text →
       (users (db w) !! uid = None →
          create_post X uid req w
          = (mkResponse 500 (Text "Server Error"), w))
       ∧ (∀ user, users (db w) !! uid = Some user →
          let post :=
            mkPost (newObjectId X (supply w)) uid text
                   (user_name user) (user_avatar user) [] [] (clock w) in
          create_post X uid req w
          = (mkResponse 200 (JPost post),
             mkWorld (set_posts (<[post_id post := post]> (posts (db w)))
                                (db w))
                     (clock w) (supply w + 1)%N (trace w)))).
Proof.
  split.
  - intros Hnone. unfold create_post.
    by rewrite (check_not_empty_missing _ _ _ Hnone).
  - intros text Htext.
    destruct (check_not_empty_given "text" "Text is required" _ _ Htext)
      as [Hval Hbody].
    split.
    + intros Hu. unfold create_post. rewrite Hval. cbn [isEmpty negb]. run.
      by rewrite Hu, Hbody.
    + intros user Hu. cbn zeta. unfold create_post. rewrite Hval.
      cbn [isEmpty negb]. run. by rewrite Hu, Hbody.
Qed.


(** ** Posts: likes in sequence *)

Lemma like_already X id uid req w post :
  castObjectId X id = true → posts (db w) !! id = Some post →
  uid ∈ like_user <$> post_likes post →
  like X id uid req w = (mkResponse 400 (JMsg "Post already liked"), w).
Proof.
  intros Hcast Hpost Hin. unfold like. run.
  rewrite Hcast, Hpost. cbn beta iota.
  apply liked_by_filter_length in Hin. by rewrite Hin.
Qed.

(** Where the identity's like is the first of the list, unlike removes
    it. *)
Lemma unlike_head X id uid req w post l rest :
  castObjectId X id = true → posts (db w) !! id = Some post →
  post_likes post = l :: rest → like_user l = uid →
  unlike X id uid req w
  = (mkResponse 200 (JLikes rest),
     set_db (set_posts (<[post_id post := set_post_likes rest post]>
                          (posts (db w))) (db w)) w).
Proof.
  intros Hcast Hpost Hlikes Hl.
  assert (uid ∈ like_user <$> post_likes post) as Hin.
  { rewrite Hlikes, fmap_cons, Hl. apply elem_of_cons. by left. }
  unfold unlike. run. rewrite Hcast, Hpost. cbn beta iota.
  rewrite (liked_by_filter_length_pos _ _ Hin), Hlikes.
  destruct rest as [|l' rest].
  - cbn [map Js.toIntegerOrInfinity_array]. by rewrite Hl, str_indexOf_self.
  - cbn [map Js.toIntegerOrInfinity_array]. by rewrite splice_zero.
Qed.

Lemma filter_likes_absent uid l :
  uid ∉ like_user <$> l → filter (λ x, like_user x = uid) l = [].
Proof.
  induction l as [|x l IH]; [done|].
  rewrite fmap_cons, not_elem_of_cons. intros [Hx Hl].
  rewrite filter_cons_False by congruence. by apply IH.
Qed.

(** X5: liking twice.  After a first like by an identity that had none,
    the post has one like more, exactly one of them the identity's, and a
    second like by the same identity is answered with 400 and changes
    nothing. *)
Theorem like_twice X id uid req req' w post :
  castObjectId X id = true → posts (db w) !! id = Some post →
  post_id post = id → uid ∉ like_user <$> post_likes post →
  let w1 := (like X id uid req w).2 in
  like X id uid req' w1 = (mkResponse 400 (JMsg "Post already liked"), w1)
  ∧ ∃ post1,
      posts (db w1) !! id = Some post1
      ∧ length (post_likes post1) = S (length (post_likes post))
      ∧ length (filter (λ l, like_user l = uid) (post_likes post1)) = 1%nat.
Proof.
  intros Hcast Hpost Hid Hnew. cbn zeta.
  rewrite (like_new X id uid req w post Hcast Hpost Hnew). cbn [snd].
  set (likes := mkLike (newObjectId X (supply w)) uid :: post_likes post).
  match goal with |- context [like X id uid req' ?w'] => set (w1 := w') end.
  assert (posts (db w1) !! id = Some (set_post_likes likes post)) as Hpost1.
  { cbn. by rewrite Hid, lookup_insert_eq. }
  split.
  - apply (like_already X id uid req' _ _ Hcast Hpost1).
    cbn. apply elem_of_cons. by left.
  - eexists. split; [exact Hpost1|]. split; [done|].
    cbn [post_likes set_post_likes]. subst likes.
    rewrite filter_cons_True by done.
    by rewrite (filter_likes_absent _ _ Hnew).
Qed.

(** X6: a like followed by an unlike of the same identity.  When the
    identity had no like on the post, the unlike removes the like just
    given (it is the first of the list), sends back the likes as they were
    before, and the store is again what it was before the like. *)
Theorem like_then_unlike X id uid req req' w post :
  castObjectId X id = true → posts (db w) !! id = Some post →
  post_id post = id → uid ∉ like_user <$> post_likes post →
  let w1 := (like X id uid req w).2 in
  (unlike X id uid req' w1).1 = mkResponse 200 (JLikes (post_likes post))
  ∧ db (unlike X id uid req' w1).2 = db w.
Proof.
  intros Hcast Hpost Hid Hnew. cbn zeta.
  rewrite (like_new X id uid req w post Hcast Hpost Hnew). cbn [snd].
  set (l := mkLike (newObjectId X (supply w)) uid).
  match goal with |- context [unlike X id uid req' ?w'] => set (w1 := w') end.
  assert (posts (db w1) !! id
          = Some (set_post_likes (l :: post_likes post) post)) as Hpost1.
  { cbn. by rewrite Hid, lookup_insert_eq. }
  rewrite (unlike_head X id uid req' w1 _ l (post_likes post) Hcast Hpost1)
    by done.
  split; [done|]. cbn.
  rewrite insert_insert_eq.
  change (set_post_likes (post_likes post)
            (set_post_likes (l :: post_likes post) post))
    with (set_post_likes (post_likes post) post).
  replace (set_post_likes (post_likes post) post) with post by by destruct post.
  rewrite Hid, insert_id by done. by destruct (db w).
Qed.

(** X7: where unlike does what is asked.  An identity without a like on
    the post is answered with 400 and nothing changes; an identity whose
    like is the first of the list has exactly that like removed, the others
    staying in their order. *)
Theorem unlike_absent_or_first X id uid req w post :
  castObjectId X id = true → posts (db w) !! id = Some post →
  (uid ∉ like_user <$> post_likes post →
     unlike X id uid req w
     = (mkResponse 400 (JMsg "Post has not yet been liked"), w))
  ∧ (∀ l rest,
       post_likes post = l :: rest → like_user l = uid →
       unlike X id uid req w
       = (mkResponse 200 (JLikes rest),
          set_db (set_posts (<[post_id post := set_post_likes rest post]>
                               (posts (db w))) (db w)) w)).
Proof.
  intros Hcast Hpost. split.
  - by apply unlike_absent.
  - intros l rest. by apply unlike_head.
Qed.

(** ** Profiles: adding and removing entries *)


Lemma findOne_profile_key d k p uid :
  db_ok d → findOne (of_user uid) (profiles d) = Some (k, p) →
  profile_id p = k ∧ profiles d !! k = Some p
  ∧ profile_user p = Some (VStr uid).
Proof.
  intros ([_ Hprof] & _) E. apply findOne_Some in E as [Hk Hu].
  apply of_user_true in Hu. split; [by apply Hprof|done].
Qed.


(** X8: removing an entry whose identifier is in the list removes the first
    entry that has it and keeps the others in their order; the profile is
    saved and sent back.  Experience and education behave alike. *)
Theorem delete_entry_present eid uid req w profile :
  snd <$> findOne (of_user uid) (profiles (db w)) = Some profile →
  (eid ∈ entry_id <$> profile_experience profile →
     ∃ i, (entry_id <$> profile_experience profile) !! i = Some eid
       ∧ (∀ j, (j < i)%nat →
            (entry_id <$> profile_experience profile) !! j ≠ Some eid)
       ∧ let profile' :=
           set_profile_experience (delete i (profile_experience profile))
                                  profile in
         delete_experience eid uid req w
         = (mkResponse 200 (JProfile profile'),
            set_db (set_profiles (<[profile_id profile := profile']>
                                    (profiles (db w))) (db w)) w))
  ∧ (eid ∈ entry_id <$> profile_education profile →
     ∃ i, (entry_id <$> profile_education profile) !! i = Some eid
       ∧ (∀ j, (j < i)%nat →
            (entry_id <$> profile_education profile) !! j ≠ Some eid)
       ∧ let profile' :=
           set_profile_education (delete i (profile_education profile))
                                 profile in
         delete_education eid uid req w
         = (mkResponse 200 (JProfile profile'),
            set_db (set_profiles (<[profile_id profile := profile']>
                                    (profiles (db w))) (db w)) w)).
Proof.
  intros Hfind. split; [by apply delete_experience_present|].
  intros Hin. destruct (indexOf_present _ _ Hin) as [H0 Hi].
  exists (Z.to_nat (Js.indexOf eid (entry_id <$> profile_education profile))).
  split; [done|]. split; [intros j Hj; by apply indexOf_first|].
  cbn zeta. unfold delete_education. run. rewrite Hfind. cbn beta iota.
  change (map entry_id (profile_education profile))
    with (entry_id <$> profile_education profile).
  rewrite splice_inside; [done|].
  split; [done|]. apply lookup_lt_Some in Hi.
  rewrite length_fmap in Hi. lia.
Qed.



(** ** Profiles: upsert and the read routes *)



(** X11: an upsert without a non-empty status or without non-empty skills
    is answered with 400 and writes nothing. *)
Theorem upsert_profile_invalid X uid req w :
  given (req_body req) "status" = None
  ∨ given (req_body req) "skills" = None →
  status (upsert_profile X uid req w).1 = 400
  ∧ (upsert_profile X uid req w).2 = w.
Proof.
  intros H. unfold upsert_profile.
  destruct (given (req_body req) "status") eqn:E1;
    [rewrite (proj2 (check_not_empty_nil "status" _ req)) by (by eexists)
    |rewrite (check_not_empty_missing _ _ _ E1); done].
  destruct (given (req_body req) "skills") eqn:E2;
    [|rewrite (check_not_empty_missing _ _ _ E2); done].
  by destruct H.
Qed.



Lemma get_my_profile_found uid req w k p :
  findOne (of_user uid) (profiles (db w)) = Some (k, p) →
  get_my_profile uid req w = (ProfilePage p (populate_user (db w) p), w).
Proof.
  intros E. unfold get_my_profile, try_page, Profile_findOne_populated. run.
  by rewrite E.
Qed.

(** X13: the profile of the authenticated user.  Without a profile the
    answer is 400; with one, the profile is sent with the name and avatar of
    its user in place of the reference ([null] when the user document is
    gone); the world is untouched. *)
Theorem get_my_profile_spec uid req w :
  (findOne (of_user uid) (profiles (db w)) = None →
     get_my_profile uid req w
     = (Answer (mkResponse 400 (JMsg "There is no profile for this user")),
        w))
  ∧ (∀ k p,
       findOne (of_user uid) (profiles (db w)) = Some (k, p) →
       get_my_profile uid req w
       = (ProfilePage p
            ((λ u, mkUserRef (user_id u) (user_name u) (user_avatar u))
               <$> users (db w) !! uid), w)).
Proof.
  split.
  - intros E. unfold get_my_profile, try_page, Profile_findOne_populated.
    run. by rewrite E.
  - intros k p E. rewrite (get_my_profile_found _ _ _ _ _ E).
    apply findOne_Some in E as [_ Hu]. apply of_user_true in Hu.
    unfold populate_user. by rewrite Hu.
Qed.



(** ** Profiles: an entry added and removed again *)







(** ** After the account is deleted *)

Lemma delete_account_run uid req w :
  delete_account uid req w
  = (mkResponse 200 (JMsg "User deleted"),
     set_db (set_users (delete uid (users (db w)))
               (set_profiles
                  (match findOne (of_user uid) (profiles (db w)) with
                   | Some (k, _) => delete k (profiles (db w))
                   | None => profiles (db w)
                   end) (db w))) w).
Proof.
  unfold delete_account. run.
  destruct (findOne _ _) as [[k p]|]; [done|]. cbn. by destruct (db w).
Qed.

Lemma delete_account_no_profile uid req w :
  db_ok (db w) →
  findOne (of_user uid) (profiles (db (delete_account uid req w).2)) = None.
Proof.
  intros Hok. rewrite delete_account_run. cbn.
  destruct (findOne (of_user uid) (profiles (db w))) as [[k p]|] eqn:E; [|done].
  destruct (findOne_profile_key _ _ _ _ Hok E) as (_ & Hk & Hu).
  destruct (findOne (of_user uid) (delete k (profiles (db w))))
    as [[k' p']|] eqn:E'; [|done].
  apply findOne_Some in E' as [[Hne Hk']%lookup_delete_Some Hu'].
  apply of_user_true in Hu'. destruct Hok as (_ & _ & Hone).
  destruct Hne. by eapply Hone.
Qed.

(** X17: what an identity can still do after its account is deleted (its
    token stays valid until it expires).  It has no user document and no
    profile any more: the read of the user sends [null], the read of the
    profile is answered with 400, creating a post or a comment is answered
    with 500 and stores nothing, and deleting the account once more is
    answered with 200 and changes nothing. *)
Theorem after_delete_account X uid req w :
  db_ok (db w) →
  let w1 := (delete_account uid req w).2 in
  (∀ r, get_auth_user uid r w1 = (UserPage None, w1))
  ∧ (∀ r, get_my_profile uid r w1
          = (Answer (mkResponse 400 (JMsg "There is no profile for this user")),
             w1))
  ∧ (∀ r, is_Some (given (req_body r) "text") →
          create_post X uid r w1 = (mkResponse 500 (Text "Server Error"), w1))
  ∧ (∀ id r, is_Some (given (req_body r) "text") →
             add_comment X id uid r w1
             = (mkResponse 500 (Text "Server Error"), w1))
  ∧ (∀ r, delete_account uid r w1
          = (mkResponse 200 (JMsg "User deleted"), w1)).
Proof.
  intros Hok. cbn zeta.
  pose proof (delete_account_no_profile uid req w Hok) as Hnone.
  assert (users (db (delete_account uid req w).2) !! uid = None) as Hu.
  { rewrite delete_account_run. cbn. apply lookup_delete_eq. }
  set (w1 := (delete_account uid req w).2) in *.
  split; [|split; [|split; [|split]]].
  - intros r. unfold get_auth_user, try_page. run. by rewrite Hu.
  - intros r. unfold get_my_profile, try_page, Profile_findOne_populated.
    run. by rewrite Hnone.
  - intros r [text Ht].
    destruct (check_not_empty_given "text" "Text is required" _ _ Ht)
      as [Hval Hbody].
    unfold create_post. rewrite Hval. cbn [isEmpty negb]. run.
    by rewrite Hu, Hbody.
  - intros id r [text Ht].
    destruct (check_not_empty_given "text" "Text is required" _ _ Ht)
      as [Hval Hbody].
    unfold add_comment. rewrite Hval. cbn [isEmpty negb]. run.
    rewrite Hu, Hbody. destruct (castObjectId X id); [|done].
    by destruct (posts (db w1) !! id).
  - intros r. rewrite delete_account_run, Hnone.
    rewrite delete_id by done.
    by destruct w1 as [[] ? ? ?].
Qed.

(** ** What the routes leave alone *)








(** X20: in every world the server can reach, every post and every profile
    is stored under its own identifier, and no user has two profiles: the
    upsert creates a profile only when the identity has none. *)
Theorem reachable_store_invariants X w :
  reachable X w →
  stored_under_id (db w) ∧ one_profile_per_user (db w).
Proof. intros Hw. by destruct (reachable_ok X w Hw) as (? & _ & ?). Qed.

(** ** Login: validation and what it writes *)

(** X21: login writes nothing to the store.  A request without a valid
    email or without a password is answered with 400 and the world is
    untouched; in every other case either the world is untouched, or the
    answer is the token signed for a stored user and the one call to the
    token library is recorded. *)
Theorem login_effects X req w :
  db (login X req w).2 = db w
  ∧ (req_body req !! "password" = None
     ∨ req_body req !! "email" = None
     ∨ (∃ e, req_body req !! "email" = Some e ∧ isEmail X e = false) →
       status (login X req w).1 = 400 ∧ (login X req w).2 = w)
  ∧ ((login X req w).2 = w
     ∨ ∃ k user,
         users (db w) !! k = Some user
         ∧ login X req w
           = (mkResponse 200
                (JToken (jwt_sign X (user_id user) (jwtSecret X) 360000
                                  (clock w))),
              log_event (EvSign (user_id user) (jwtSecret X) 360000) w)).
Proof.
  split; [apply login_db|]. split.
  - intros H. unfold login, check_isEmail, check_exists.
    destruct H as [H|[H|(e & H & He)]]; rewrite H.
    + by destruct (req_body req !! "email") as [e|]; [destruct (isEmail X e)|].
    + done.
    + by rewrite He.
  - unfold login. case_match; [by left|]. run.
    destruct (req_body req !! "email") as [email|]; [|by left].
    destruct (req_body req !! "password") as [password|]; [|by left].
    cbn beta iota.
    destruct (findOne _ _) as [[k user]|] eqn:E; [|by left]. cbn.
    apply findOne_Some in E as [Hk _].
    destruct (bcrypt_compare _ _ _); cbn; [|by left].
    right. by exists k, user.
Qed.

(** ** The further properties on the sample data *)

Lemma sample_world_ok : db_ok (db Sample.world).
Proof.
  unfold db_ok, stored_under_id, one_like_per_user, one_profile_per_user.
  change (posts (db Sample.world))
    with ({[ Sample.post_id1 := Sample.post1 ]} : gmap string Post).
  change (profiles (db Sample.world))
    with ({[ Sample.profile_id1 := Sample.profile1 ]} : gmap string Profile).
  split; [split|split].
  - intros k p [<- <-]%lookup_singleton_Some. reflexivity.
  - intros k p [<- <-]%lookup_singleton_Some. reflexivity.
  - intros k p [<- <-]%lookup_singleton_Some. compute_true.
  - intros k1 k2 p1 p2 uid [<- _]%lookup_singleton_Some
      [<- _]%lookup_singleton_Some _ _. reflexivity.
Qed.

Ltac concrete := first [ reflexivity | vm_compute; reflexivity
                       | vm_compute; eauto | compute_true ].



(** Bob posts without a text and with one; Carol, who has no user document,
    posts with a text. *)
Lemma create_post_spec_witness :
  let empty := Sample.request None {[ "text" := "" ]} in
  let req := Sample.request None Sample2.text_body in
  given (req_body empty) "text" = None
  ∧ given (req_body req) "text" = Some "Well said"
  ∧ users (db Sample.world) !! Sample2.carol_id = None
  ∧ users (db Sample.world) !! Sample.bob_id = Some Sample.bob
  ∧ status (create_post Ref.X Sample.bob_id empty Sample.world).1 = 400
  ∧ create_post Ref.X Sample2.carol_id req Sample.world
    = (mkResponse 500 (Text "Server Error"), Sample.world)
  ∧ (create_post Ref.X Sample.bob_id req Sample.world).1
    = mkResponse 200
        (JPost (mkPost "000000000000000000000007" Sample.bob_id "Well said"
                       "Bob" "b.png" [] [] 2000)).
Proof.
  cbn zeta.
  set (empty := Sample.request None {[ "text" := "" ]}).
  set (req := Sample.request None Sample2.text_body).
  assert (given (req_body empty) "text" = None) as H1 by concrete.
  assert (given (req_body req) "text" = Some "Well said") as H2 by concrete.
  assert (users (db Sample.world) !! Sample2.carol_id = None) as H3
    by concrete.
  assert (users (db Sample.world) !! Sample.bob_id = Some Sample.bob) as H4
    by concrete.
  repeat (split; [assumption|]).
  split; [|split].
  - by rewrite (proj1 (create_post_spec Ref.X Sample.bob_id empty Sample.world)
                      H1).
  - exact (proj1 (proj2 (create_post_spec Ref.X Sample2.carol_id req
                           Sample.world) _ H2) H3).
  - by rewrite (proj2 (proj2 (create_post_spec Ref.X Sample.bob_id req
                                Sample.world) _ H2) _ H4).
Defined.


(** Bob likes the quiet post twice, and likes and unlikes it. *)
Lemma like_twice_witness :
  let req := Sample.request None Sample.no_body in
  let w1 := (like Ref.X Sample.post_id1 Sample.bob_id req
               Sample2.quiet_world).2 in
  castObjectId Ref.X Sample.post_id1 = true
  ∧ posts (db Sample2.quiet_world) !! Sample.post_id1
    = Some Sample2.quiet_post
  ∧ (Sample.bob_id ∉ like_user <$> post_likes Sample2.quiet_post)
  ∧ like Ref.X Sample.post_id1 Sample.bob_id req w1
    = (mkResponse 400 (JMsg "Post already liked"), w1).
Proof.
  cbn zeta.
  assert (castObjectId Ref.X Sample.post_id1 = true) as H1 by concrete.
  assert (posts (db Sample2.quiet_world) !! Sample.post_id1
          = Some Sample2.quiet_post) as H2 by concrete.
  assert (Sample.bob_id ∉ like_user <$> post_likes Sample2.quiet_post) as H3
    by compute_true.
  repeat (split; [assumption|]).
  exact (proj1 (like_twice Ref.X Sample.post_id1 Sample.bob_id
                  (Sample.request None Sample.no_body)
                  (Sample.request None Sample.no_body)
                  Sample2.quiet_world Sample2.quiet_post H1 H2 eq_refl H3)).
Defined.

Lemma like_then_unlike_witness :
  let req := Sample.request None Sample.no_body in
  let w1 := (like Ref.X Sample.post_id1 Sample.bob_id req
               Sample2.quiet_world).2 in
  castObjectId Ref.X Sample.post_id1 = true
  ∧ posts (db Sample2.quiet_world) !! Sample.post_id1
    = Some Sample2.quiet_post
  ∧ (Sample.bob_id ∉ like_user <$> post_likes Sample2.quiet_post)
  ∧ (unlike Ref.X Sample.post_id1 Sample.bob_id req w1).1
    = mkResponse 200 (JLikes [])
  ∧ db (unlike Ref.X Sample.post_id1 Sample.bob_id req w1).2
    = db Sample2.quiet_world.
Proof.
  cbn zeta.
  assert (castObjectId Ref.X Sample.post_id1 = true) as H1 by concrete.
  assert (posts (db Sample2.quiet_world) !! Sample.post_id1
          = Some Sample2.quiet_post) as H2 by concrete.
  assert (Sample.bob_id ∉ like_user <$> post_likes Sample2.quiet_post) as H3
    by compute_true.
  repeat (split; [assumption|]).
  exact (like_then_unlike Ref.X Sample.post_id1 Sample.bob_id
           (Sample.request None Sample.no_body)
           (Sample.request None Sample.no_body)
           Sample2.quiet_world Sample2.quiet_post H1 H2 eq_refl H3).
Defined.

(** On the sample post: Carol, who gave no like, and Alice, whose like is
    the first. *)
Lemma unlike_absent_or_first_witness :
  let req := Sample.request None Sample.no_body in
  castObjectId Ref.X Sample.post_id1 = true
  ∧ posts (db Sample.world) !! Sample.post_id1 = Some Sample.post1
  ∧ (Sample2.carol_id ∉ like_user <$> post_likes Sample.post1)
  ∧ unlike Ref.X Sample.post_id1 Sample2.carol_id req Sample.world
    = (mkResponse 400 (JMsg "Post has not yet been liked"), Sample.world)
  ∧ (unlike Ref.X Sample.post_id1 Sample.alice_id req Sample.world).1
    = mkResponse 200 (JLikes [Sample.like_of_bob]).
Proof.
  cbn zeta.
  assert (castObjectId Ref.X Sample.post_id1 = true) as H1 by concrete.
  assert (posts (db Sample.world) !! Sample.post_id1 = Some Sample.post1)
    as H2 by concrete.
  assert (Sample2.carol_id ∉ like_user <$> post_likes Sample.post1) as H3
    by compute_true.
  repeat (split; [assumption|]).
  split.
  - exact (proj1 (unlike_absent_or_first Ref.X Sample.post_id1
                    Sample2.carol_id (Sample.request None Sample.no_body)
                    Sample.world Sample.post1 H1 H2) H3).
  - by rewrite (proj2 (unlike_absent_or_first Ref.X Sample.post_id1
                    Sample.alice_id (Sample.request None Sample.no_body)
                    Sample.world Sample.post1 H1 H2)
                  Sample.like_of_alice [Sample.like_of_bob] eq_refl eq_refl).
Defined.

(** Alice removes her first job and her school by their identifiers. *)
Lemma delete_entry_present_witness :
  let req := Sample.request None Sample.no_body in
  snd <$> findOne (of_user Sample.alice_id) (profiles (db Sample.world))
    = Some Sample.profile1
  ∧ entry_id Sample.job1 ∈ entry_id <$> profile_experience Sample.profile1
  ∧ entry_id Sample.school1 ∈ entry_id <$> profile_education Sample.profile1
  ∧ (∃ p, (delete_experience (entry_id Sample.job1) Sample.alice_id req
             Sample.world).1 = mkResponse 200 (JProfile p)
        ∧ profile_experience p = [Sample.job2])
  ∧ (∃ p, (delete_education (entry_id Sample.school1) Sample.alice_id req
             Sample.world).1 = mkResponse 200 (JProfile p)
        ∧ profile_education p = []).
Proof.
  cbn zeta.
  assert (snd <$> findOne (of_user Sample.alice_id)
                    (profiles (db Sample.world)) = Some Sample.profile1)
    as Hfind by concrete.
  assert (entry_id Sample.job1
            ∈ entry_id <$> profile_experience Sample.profile1) as H1
    by compute_true.
  assert (entry_id Sample.school1
            ∈ entry_id <$> profile_education Sample.profile1) as H2
    by compute_true.
  repeat (split; [assumption|]).
  split.
  - destruct (proj1 (delete_entry_present (entry_id Sample.job1)
                       Sample.alice_id (Sample.request None Sample.no_body)
                       Sample.world Sample.profile1 Hfind) H1)
      as (i & Hi & Hfirst & Hrun).
    destruct i as [|i]; [|destruct (Hfirst 0%nat); [lia|reflexivity]].
    eexists. rewrite Hrun. split; reflexivity.
  - destruct (proj2 (delete_entry_present (entry_id Sample.school1)
                       Sample.alice_id (Sample.request None Sample.no_body)
                       Sample.world Sample.profile1 Hfind) H2)
      as (i & Hi & Hfirst & Hrun).
    destruct i as [|i]; [|destruct (Hfirst 0%nat); [lia|reflexivity]].
    eexists. rewrite Hrun. split; reflexivity.
Defined.



(** An upsert with an empty body. *)
Lemma upsert_profile_invalid_witness :
  given (req_body (Sample.request None Sample.no_body)) "status" = None
  ∧ status (upsert_profile Ref.X Sample.alice_id
              (Sample.request None Sample.no_body) Sample.world).1 = 400
  ∧ (upsert_profile Ref.X Sample.alice_id
       (Sample.request None Sample.no_body) Sample.world).2 = Sample.world.
Proof.
  assert (given (req_body (Sample.request None Sample.no_body)) "status"
          = None) as H by concrete.
  split; [exact H|].
  exact (upsert_profile_invalid Ref.X Sample.alice_id
           (Sample.request None Sample.no_body) Sample.world (or_introl H)).
Defined.


(** Alice reads her profile; Bob has none. *)
Lemma get_my_profile_spec_witness :
  let req := Sample.request None Sample.no_body in
  findOne (of_user Sample.bob_id) (profiles (db Sample.world)) = None
  ∧ findOne (of_user Sample.alice_id) (profiles (db Sample.world))
    = Some (Sample.profile_id1, Sample.profile1)
  ∧ get_my_profile Sample.bob_id req Sample.world
    = (Answer (mkResponse 400 (JMsg "There is no profile for this user")),
       Sample.world)
  ∧ get_my_profile Sample.alice_id req Sample.world
    = (ProfilePage Sample.profile1
         (Some (mkUserRef Sample.alice_id "Alice" "a.png")), Sample.world).
Proof.
  cbn zeta.
  assert (findOne (of_user Sample.bob_id) (profiles (db Sample.world)) = None)
    as H1 by concrete.
  assert (findOne (of_user Sample.alice_id) (profiles (db Sample.world))
          = Some (Sample.profile_id1, Sample.profile1)) as H2 by concrete.
  repeat (split; [assumption|]).
  split.
  - exact (proj1 (get_my_profile_spec Sample.bob_id
                    (Sample.request None Sample.no_body) Sample.world) H1).
  - rewrite (proj2 (get_my_profile_spec Sample.alice_id
                      (Sample.request None Sample.no_body) Sample.world)
                   _ _ H2).
    concrete.
Defined.




(** Alice deletes her account and goes on using her token. *)
Lemma after_delete_account_witness :
  let req := Sample.request None Sample.no_body in
  let text := Sample.request None Sample2.text_body in
  let w1 := (delete_account Sample.alice_id req Sample.world).2 in
  db_ok (db Sample.world)
  ∧ is_Some (given (req_body text) "text")
  ∧ get_auth_user Sample.alice_id req w1 = (UserPage None, w1)
  ∧ create_post Ref.X Sample.alice_id text w1
    = (mkResponse 500 (Text "Server Error"), w1)
  ∧ add_comment Ref.X Sample.post_id1 Sample.alice_id text w1
    = (mkResponse 500 (Text "Server Error"), w1)
  ∧ delete_account Sample.alice_id req w1
    = (mkResponse 200 (JMsg "User deleted"), w1)
  ∧ posts (db w1) !! Sample.post_id1 = Some Sample.post1.
Proof.
  cbn zeta.
  assert (is_Some (given (req_body (Sample.request None Sample2.text_body))
                         "text")) as Ht by concrete.
  destruct (after_delete_account Ref.X Sample.alice_id
              (Sample.request None Sample.no_body) Sample.world
              sample_world_ok) as (Hu & _ & Hp & Hc & Hd).
  split; [exact sample_world_ok|]. split; [exact Ht|].
  split; [apply Hu|]. split; [by apply Hp|]. split; [by apply Hc|].
  split; [apply Hd|]. concrete.
Defined.



(** The world after Alice's profile, her post and Bob's like. *)
Lemma reachable_store_invariants_witness :
  reachable Ref.X Sample.after_like
  ∧ stored_under_id (db Sample.after_like)
  ∧ one_profile_per_user (db Sample.after_like).
Proof.
  split; [exact sample_reachable|].
  exact (reachable_store_invariants Ref.X Sample.after_like sample_reachable).
Defined.

(** A login without a password, one with a malformed email, and Alice's
    login. *)
Lemma login_effects_witness :
  let no_password :=
    Sample.request None {[ "email" := "alice@example.com" ]} in
  let bad_email :=
    Sample.request None {[ "email" := "alice"; "password" := "wonderland" ]} in
  let good :=
    Sample.request None
      {[ "email" := "alice@example.com"; "password" := "wonderland" ]} in
  req_body no_password !! "password" = None
  ∧ req_body bad_email !! "email" = Some "alice"
  ∧ isEmail Ref.X "alice" = false
  ∧ status (login Ref.X no_password Sample.world).1 = 400
  ∧ (login Ref.X no_password Sample.world).2 = Sample.world
  ∧ status (login Ref.X bad_email Sample.world).1 = 400
  ∧ db (login Ref.X good Sample.world).2 = db Sample.world
  ∧ trace (login Ref.X good Sample.world).2
    = [EvSign Sample.alice_id (jwtSecret Ref.X) 360000].
Proof.
  cbn zeta.
  set (no_password := Sample.request None {[ "email" := "alice@example.com" ]}).
  set (bad_email :=
         Sample.request None {[ "email" := "alice";
                                "password" := "wonderland" ]}).
  set (good := Sample.request None {[ "email" := "alice@example.com";
                                      "password" := "wonderland" ]}).
  assert (req_body no_password !! "password" = None) as H1 by concrete.
  assert (req_body bad_email !! "email" = Some "alice") as H2 by concrete.
  assert (isEmail Ref.X "alice" = false) as H3 by concrete.
  repeat (split; [assumption|]).
  destruct (login_effects Ref.X no_password Sample.world)
    as (_ & Hinv & _).
  destruct (Hinv (or_introl H1)) as [Hs Hw].
  destruct (login_effects Ref.X bad_email Sample.world) as (_ & Hinv' & _).
  destruct (Hinv' (or_intror (or_intror (ex_intro _ _ (conj H2 H3)))))
    as [Hs' _].
  destruct (login_effects Ref.X good Sample.world) as (Hdb & _ & Hout).
  repeat (split; [assumption|]).
  destruct Hout as [Hsame|(k & user & _ & Hrun)].
  - exfalso. assert (trace (login Ref.X good Sample.world).2 = []) as Ht
      by by rewrite Hsame.
    vm_compute in Ht. discriminate.
  - concrete.
Defined.
